(** * groq-chatbot: session state and streaming-response pipeline

    A shallow embedding of [groq_chat/handlers.py] and of the handler
    tables of [groq_chat/bot.py], with the properties of the session
    state, of the streaming turn and of the routing table proved over it.

    Conventions.
    - [context.user_data] is a Python dict with the four keys
      ["system_prompt"], ["messages"], ["model"] and ["voice_enabled"];
      it is the record [user_data], a missing key being [None].
    - Handlers are coroutines that mutate [context.user_data], call the
      Telegram transport, write log records and may raise; they are
      computations of the monad [M] over the state [world].
    - What the outside world answers (the completion stream, the outcome
      of a reply, of a message edit, of a voice upload, of language
      detection and of speech synthesis) is data of the record [env]. *)

From Stdlib Require Import Ascii String NArith ZArith Lia.
From stdpp Require Import base tactics option list strings gmap.

(** ** Python text

    A [str] is a sequence of code points; the model keeps the code points
    0..255, one per [ascii].  On this range [str.lower] moves A..Z and the
    Latin-1 capitals (U+00C0..U+00DE but U+00D7) 32 places up, and
    [str.isspace] holds of U+0009..U+000D, U+001C..U+0020, U+0085 and
    U+00A0. *)
Module PyStr.

Definition lower_char (c : ascii) : ascii :=
  let n := N_of_ascii c in
  if ((65 <=? n) && (n <=? 90)
      || (192 <=? n) && (n <=? 222) && negb (n =? 215))%N
  then ascii_of_N (n + 32)
  else c.

Fixpoint lower (s : string) : string :=
  match s with
  | EmptyString => EmptyString
  | String c s' => String (lower_char c) (lower s')
  end.

Definition isspace (c : ascii) : bool :=
  let n := N_of_ascii c in
  ((9 <=? n) && (n <=? 13) || (28 <=? n) && (n <=? 32)
   || (n =? 133) || (n =? 160))%N.

Fixpoint lstrip (s : string) : string :=
  match s with
  | EmptyString => EmptyString
  | String c s' => if isspace c then lstrip s' else s
  end.

Definition reverse (s : string) : string :=
  string_of_list_ascii (rev (list_ascii_of_string s)).

Definition rstrip (s : string) : string := reverse (lstrip (reverse s)).

Definition strip (s : string) : string := rstrip (lstrip s).

(** Truth value of a [str] in a condition: the empty string is false. *)
Definition truthy (s : string) : bool :=
  match s with
  | EmptyString => false
  | String _ _ => true
  end.

End PyStr.

(** ** Session data *)

(** One entry of [context.user_data["messages"]]: a dict with the keys
    ["role"] and ["content"]. *)
Record turn := Turn { role : string; content : string }.

Global Instance turn_eq_dec : EqDecision turn.
Proof. solve_decision. Defined.

(** [context.user_data]. *)
Record user_data := UserData {
  system_prompt : option string;
  messages : option (list turn);
  model : option string;
  voice_enabled : option bool
}.

Global Instance user_data_eq_dec : EqDecision user_data.
Proof. solve_decision. Defined.

(** A dict without any key: the session of a user seen for the first time. *)
Definition empty_user_data : user_data := UserData None None None None.

Definition set_system_prompt (v : option string) (ud : user_data) : user_data :=
  UserData v (messages ud) (model ud) (voice_enabled ud).

Definition set_messages (l : list turn) (ud : user_data) : user_data :=
  UserData (system_prompt ud) (Some l) (model ud) (voice_enabled ud).

Definition set_model (m : string) (ud : user_data) : user_data :=
  UserData (system_prompt ud) (messages ud) (Some m) (voice_enabled ud).

Definition set_voice_enabled (b : bool) (ud : user_data) : user_data :=
  UserData (system_prompt ud) (messages ud) (model ud) (Some b).

(** [context.user_data.get("messages", [])]. *)
Definition history (ud : user_data) : list turn := default [] (messages ud).

(** [context.user_data.get("voice_enabled", True)]. *)
Definition voice_setting (ud : user_data) : bool := default true (voice_enabled ud).

(** ** Updates

    What python-telegram-bot hands to a handler.  The classification of a
    message is the one Telegram makes when it marks the entities of the
    text: a message whose text starts with a [bot_command] entity is a
    command (for a command addressed as [/name@bot], [command] is the name
    before the [@]), any other message with a text is a plain text. *)

Inductive update :=
  | CommandUpdate (user : string) (command : string)
      (* a message whose text starts with /command *)
  | TextUpdate (user : string) (text : string)
      (* a text message that does not start with a command *)
  | MediaUpdate (user : string)
      (* a message without text *)
  | CallbackQueryUpdate (user : string) (data : string).
      (* a press on an inline keyboard button *)

Definition effective_user (u : update) : string :=
  match u with
  | CommandUpdate user _ | TextUpdate user _ | MediaUpdate user
  | CallbackQueryUpdate user _ => user
  end.

Definition is_message (u : update) : bool :=
  match u with
  | CallbackQueryUpdate _ _ => false
  | _ => true
  end.

(** [update.message.text]. *)
Definition message_text (u : update) : option string :=
  match u with
  | CommandUpdate _ command => Some ("/" +:+ command)
  | TextUpdate _ text => Some text
  | MediaUpdate _ | CallbackQueryUpdate _ _ => None
  end.

(** ** The outside world *)

(** Errors of the Telegram transport; each is raised as an exception by
    the call that meets it. *)
Inductive tg_error := NotModified | RetryAfter | BadRequest | NetworkError.

Global Instance tg_error_eq_dec : EqDecision tg_error.
Proof. solve_decision. Defined.

(** Calls made on the transport. *)
Inductive tg_call :=
  | ReplyText (text : string)
  | ReplyHtml (text : string)
  | SendChatAction (action : string)
  | EditText (text : string)
  | ReplyKeyboard (text : string) (buttons : list (string * string))
  | QueryEditMessageText (text : string)
  | ReplyVoice (voice : string).

Global Instance tg_call_eq_dec : EqDecision tg_call.
Proof. solve_decision. Defined.

(** The calls a handler has awaited so far, oldest first, each with its
    outcome: [None] when the transport accepted it, the error it raised
    otherwise. *)
Definition outbox := list (tg_call * option tg_error).

(** The exceptions a handler meets. *)
Inductive exn :=
  | TelegramError (e : tg_error)
  | StreamError
  | FileNotFoundError
  | AttributeError.

Global Instance exn_eq_dec : EqDecision exn.
Proof. solve_decision. Defined.

(** Outcome of [gTTS(...).save(filename)]: the audio written, or an
    exception, after which the file holds [leftover] if that is [Some]
    and is untouched otherwise. *)
Inductive tts_result :=
  | TtsSaved (audio : string)
  | TtsError (leftover : option string).

(** A run of the generator returned by [generate_response(message, context)].
    The generator holds [context], so a resumption may change
    [context.user_data] before it yields a part, returns, or raises: each
    step carries the dict [ud'] as that resumption leaves it.  The loop of
    [message_handler] does not write to the dict between two resumptions,
    so the run is a function of the message and of the dict the generator
    finds when it starts. *)
Inductive gen_trace :=
  | GenYield (ud' : user_data) (message_part : string) (rest : gen_trace)
  | GenReturn (ud' : user_data)
  | GenRaise (ud' : user_data).

Record env := Env {
  (** [groq_chat.html_format.format_message] *)
  format_message : string -> string;
  (** what [update.message.reply_text] and [reply_html] answer to a call,
      given the calls made before *)
  reply_outcome : outbox -> tg_call -> option tg_error;
  (** what [init_msg.edit_text] and [query.edit_message_text] answer *)
  edit_text_outcome : outbox -> string -> option tg_error;
  (** what [update.message.reply_voice] answers *)
  reply_voice_outcome : outbox -> string -> option tg_error;
  (** [langdetect.detect]; [None] is [LangDetectException] *)
  detect : string -> option string;
  (** [gTTS(text=text, lang=language, slow=False).save] *)
  gTTS_save : string -> string -> tts_result;
  (** the completion service: for the history and the model identifier of
      a request, the fragments it streams and whether the stream then ends
      normally ([true]) or with an upstream error ([false]) *)
  completion : list turn -> option string -> list string * bool;
  (** the allow-list behind [AuthFilter] *)
  isAuthorized : string -> bool;
  (** [json.dumps(update.to_dict(), indent=2, ensure_ascii=False)] *)
  json_dumps : update -> string;
  (** ["".join(traceback.format_exception(None, error, error.__traceback__))] *)
  format_exception : exn -> string
}.

(** ** Handler state and the handler monad *)

Inductive log_level := INFO | ERROR.

Global Instance log_level_eq_dec : EqDecision log_level.
Proof. solve_decision. Defined.

Record world := World {
  ctx : user_data;                 (* context.user_data *)
  sent : outbox;                   (* awaited transport calls, oldest first *)
  scheduled : list tg_call;        (* calls handed to the event loop, not awaited *)
  log : list (log_level * string); (* records the handlers write with logging *)
  files : gmap string string       (* files of the working directory *)
}.

Inductive result (A : Type) :=
  | Ret (a : A)
  | Raise (e : exn).
Arguments Ret {A} a.
Arguments Raise {A} e.

Definition M (A : Type) : Type := world -> result A * world.

Global Instance M_ret : MRet M := fun A a w => (Ret a, w).

Global Instance M_bind : MBind M := fun A B f m w =>
  match m w with
  | (Ret a, w') => f a w'
  | (Raise e, w') => (Raise e, w')
  end.

Definition raise {A} (e : exn) : M A := fun w => (Raise e, w).

(** [try: body except Exception as e: handler(e)]. *)
Definition try_except {A} (body : M A) (handler : exn -> M A) : M A := fun w =>
  match body w with
  | (Ret a, w') => (Ret a, w')
  | (Raise e, w') => handler e w'
  end.

Definition get_ctx : M user_data := fun w => (Ret (ctx w), w).

Definition put_ctx (ud : user_data) : M unit := fun w =>
  (Ret tt, World ud (sent w) (scheduled w) (log w) (files w)).

Definition modify_ctx (f : user_data -> user_data) : M unit :=
  ud ← get_ctx; put_ctx (f ud).

(** [logging.info], [logging.error] and [logging.exception] (which logs
    at the level ERROR); the text of the exception that the f-strings of
    the source append to a message is left out of [msg]. *)
Definition logging (lvl : log_level) (msg : string) : M unit := fun w =>
  (Ret tt, World (ctx w) (sent w) (scheduled w) (log w ++ [(lvl, msg)]) (files w)).

(** An awaited transport call: the outside world decides its outcome [o]
    from the calls made before it, and a rejected call raises where it is
    awaited. *)
Definition tg_try (c : tg_call) (o : outbox -> option tg_error) : M unit := fun w =>
  let r := o (sent w) in
  let w' := World (ctx w) (sent w ++ [(c, r)]) (scheduled w) (log w) (files w) in
  match r with
  | None => (Ret tt, w')
  | Some e => (Raise (TelegramError e), w')
  end.

(** [await update.message.reply_text(...)] and its siblings [reply_html]
    and [reply_text(..., reply_markup=...)]. *)
Definition tg_reply (E : env) (c : tg_call) : M unit :=
  tg_try c (fun ob => reply_outcome E ob c).

(** [asyncio.run_coroutine_threadsafe(coro, loop)] with the future it
    returns dropped: the call is handed to the event loop, which runs it
    once the handler is suspended; the handler neither waits for it nor
    sees its outcome. *)
Definition run_coroutine_threadsafe (c : tg_call) : M unit := fun w =>
  (Ret tt, World (ctx w) (sent w) (scheduled w ++ [c]) (log w) (files w)).

Definition read_file (name : string) : M string := fun w =>
  match files w !! name with
  | Some data => (Ret data, w)
  | None => (Raise FileNotFoundError, w)
  end.

Definition write_file (name data : string) : M unit := fun w =>
  (Ret tt, World (ctx w) (sent w) (scheduled w) (log w) (<[name := data]> (files w))).

(** The line feed of the message texts. *)
Definition nl : string := String (ascii_of_nat 10) EmptyString.

(** [s.replace(old, "")] for a non-empty [old]: the occurrences of [old]
    are removed from left to right; [skip] counts the characters of a
    matched occurrence still to drop. *)
Fixpoint remove_all (old s : string) (skip : nat) : string :=
  match s with
  | EmptyString => EmptyString
  | String c s' =>
      match skip with
      | S k => remove_all old s' k
      | O =>
          if String.prefix old s
          then remove_all old s' (String.length old - 1)
          else String c (remove_all old s' 0)
      end
  end.

(** [html.escape(s)] of the Python library: the characters [&], [<], [>],
    the double quote (code 34) and the single quote are replaced by their
    entities. *)
Module PyHtml.

Definition escape_char (c : ascii) : string :=
  if Ascii.eqb c "&" then "&amp;"
  else if Ascii.eqb c "<" then "&lt;"
  else if Ascii.eqb c ">" then "&gt;"
  else if Ascii.eqb c (ascii_of_nat 34) then "&quot;"
  else if Ascii.eqb c "'" then "&#x27;"
  else String c EmptyString.

Fixpoint escape (s : string) : string :=
  match s with
  | EmptyString => EmptyString
  | String c s' => escape_char c +:+ escape s'
  end.

End PyHtml.

(** ** groq_chat/handlers.py *)

Local Open Scope Z_scope.

Definition SYSTEM_PROMPT_SP : Z := 1.
Definition CANCEL_SP : Z := 2.

(** [ConversationHandler.END] of python-telegram-bot. *)
Definition END : Z := -1.

Local Close Scope Z_scope.

Section Handlers.

Context (E : env).

(** The generator function [groq_chat.groq_chat.generate_response]: the
    run it makes for a message and the [context.user_data] it finds. *)
Context (gen : string -> user_data -> gen_trace).

Definition new_chat : M unit :=
  ud ← get_ctx;
  match system_prompt ud with
  | Some p => put_ctx (set_messages [Turn "system" p] ud)
  | None => put_ctx (set_messages [] ud)
  end.

Definition text_to_wav (text filename : string) : M unit :=
  language ← match detect E text with
             | Some l => mret l
             | None =>
                 logging ERROR "Language detection failed. Defaulting to English.";;
                 mret "en"
             end;
  match gTTS_save E text language with
  | TtsSaved audio =>
      write_file filename audio;;
      logging INFO ("Audio saved as '" +:+ filename +:+ "'")
  | TtsError leftover =>
      match leftover with
      | Some data => write_file filename data
      | None => mret tt
      end;;
      logging ERROR "Error during text-to-speech conversion"
  end.

Definition start (mention_html : string) : M unit :=
  tg_reply E (ReplyHtml ("Hi " +:+ mention_html +:+ "!" +:+ nl +:+ nl
    +:+ "Start sending messages with me to generate a response." +:+ nl +:+ nl
    +:+ "Send /new to start a new chat session.")).

Definition help_text : string :=
  nl +:+ "Basic commands:" +:+ nl
  +:+ "/start - Start the bot" +:+ nl
  +:+ "/help - Get help. Shows this message" +:+ nl
  +:+ nl
  +:+ "Chat commands:" +:+ nl
  +:+ "/new - Start a new chat session (model will forget previously generated messages)" +:+ nl
  +:+ "/model - Change the model used to generate responses." +:+ nl
  +:+ "/system_prompt - Change the system prompt used for new chat sessions." +:+ nl
  +:+ "/info - Get info about the current chat session." +:+ nl
  +:+ "/audio - Enable/disable voice synthesis for responses." +:+ nl
  +:+ nl
  +:+ "Send a message to the bot to generate a response." +:+ nl.

Definition help_command : M unit := tg_reply E (ReplyText help_text).

Definition new_command_handler : M unit :=
  new_chat;;
  tg_reply E (ReplyText ("New chat session started." +:+ nl +:+ nl
                         +:+ "Switch models with /model.")).

Definition models : list string :=
  ["llama-3.3-70b-versatile"; "llama-3.1-8b-instant"; "llama-3.1-70b-versatile";
   "gemma2-9b-it"; "llama3-8b-8192"; "llama3-70b-8192"; "mixtral-8x7b-32768";
   "gemma-7b-it"].

Definition model_command_handler : M unit :=
  tg_reply E (ReplyKeyboard "Select a model:"
                ((fun m => (m, "change_model_" +:+ m)) <$> models)).

Definition change_model_callback_handler (data : string) : M unit :=
  let m := remove_all "change_model_" data 0 in
  modify_ctx (set_model m);;
  let text := "Model changed to `" +:+ m +:+ "`. " +:+ nl +:+ nl
              +:+ "Send /new to start a new chat session." in
  tg_try (QueryEditMessageText text) (fun ob => edit_text_outcome E ob text).

Definition start_system_prompt : M Z :=
  tg_reply E (ReplyText
    "Send me a system prompt. If you want to clear the system prompt, send `clear` now.");;
  mret SYSTEM_PROMPT_SP.

Definition cancelled_system_prompt : M Z :=
  tg_reply E (ReplyText "System prompt change cancelled.");;
  mret END.

(** [text] is [update.message.text], [None] for a message without text. *)
Definition get_system_prompt (text : option string) : M Z :=
  match text with
  | None => raise AttributeError
  | Some prompt =>
      (if decide (PyStr.strip (PyStr.lower prompt) = "clear")
       then modify_ctx (set_system_prompt None);;
            tg_reply E (ReplyText "System prompt cleared.")
       else modify_ctx (set_system_prompt (Some prompt));;
            tg_reply E (ReplyText "System prompt changed."));;
      new_chat;;
      mret END
  end.

Definition audio_command_handler : M unit :=
  ud ← get_ctx;
  let current_state := voice_setting ud in
  let new_state := negb current_state in
  put_ctx (set_voice_enabled new_state ud);;
  let state_text := if new_state then "enabled" else "disabled" in
  tg_reply E (ReplyText ("Voice synthesis has been " +:+ state_text +:+ ".")).

(** The [for message_part in generate_response(message, context)] loop
    with its accumulator [full_output_message]. *)
Fixpoint for_message_part (t : gen_trace) (full_output_message : string) : M string :=
  match t with
  | GenYield ud' message_part rest =>
      put_ctx ud';;
      if PyStr.truthy message_part
      then let full := full_output_message +:+ message_part in
           let send_message := format_message E full in
           tg_try (EditText send_message)
                  (fun ob => edit_text_outcome E ob send_message);;
           for_message_part rest full
      else for_message_part rest full_output_message
  | GenReturn ud' => put_ctx ud';; mret full_output_message
  | GenRaise ud' => put_ctx ud';; raise StreamError
  end.

(** Lines 200 to 206: the generator is made from the message and the
    context, then driven to its end. *)
Definition stream_answer (message : string) : M string :=
  ud ← get_ctx;
  for_message_part (gen message ud) EmptyString.

(** Lines 216 to 228: the voice answer. *)
Definition voice_answer (full_output_message : string) : M unit :=
  ud ← get_ctx;
  if voice_setting ud
  then try_except
         (text_to_wav full_output_message "temp_audio.wav";;
          audio_buffer ← read_file "temp_audio.wav";
          tg_try (ReplyVoice audio_buffer)
                 (fun ob => reply_voice_outcome E ob audio_buffer))
         (fun _ => logging ERROR "Error generating or sending audio")
  else mret tt.

(** The body of the outer [try] of [message_handler]. *)
Definition message_body (message : string) : M unit :=
  full_output_message ← stream_answer message;
  modify_ctx (fun ud =>
    set_messages (history ud ++ [Turn "assistant" full_output_message]) ud);;
  voice_answer full_output_message.

(** Lines 184 to 190: the defaults and the placeholder, which is awaited
    before the [try] is entered. *)
Definition message_prelude : M unit :=
  ud ← get_ctx;
  match model ud with
  | None => modify_ctx (set_model "llama-3.1-8b-instant")
  | Some _ => mret tt
  end;;
  ud ← get_ctx;
  match messages ud with
  | None => modify_ctx (set_messages [])
  | Some _ => mret tt
  end;;
  tg_reply E (ReplyText "Generating response...").

Definition failure_notice : string :=
  "An error occurred while processing your request.".

Definition message_handler (text : option string) : M unit :=
  message_prelude;;
  match text with
  | None => mret tt
  | Some message =>
      if PyStr.truthy message
      then run_coroutine_threadsafe (SendChatAction "typing");;
           try_except (message_body message)
             (fun _ =>
                logging ERROR "Error processing the request";;
                tg_try (EditText failure_notice)
                       (fun ob => edit_text_outcome E ob failure_notice))
      else mret tt
  end.

(** [context.user_data.get("model", "llama3-8b-8192")] of the info
    command. *)
Definition info_model (ud : user_data) : string :=
  default "llama3-8b-8192" (model ud).

Definition info_command_handler : M unit :=
  ud ← get_ctx;
  let message := "**__Conversation Info:__**" +:+ nl
                 +:+ "**Model**: `" +:+ info_model ud +:+ "`" +:+ nl in
  tg_reply E (ReplyText (format_message E message)).

(** The message [error_handler] builds from the update and the exception
    [context.error]. *)
Definition error_report (u : update) (e : exn) : string :=
  "An exception was raised while handling an update" +:+ nl
  +:+ "<pre>update = " +:+ PyHtml.escape (json_dumps E u) +:+ "</pre>"
  +:+ nl +:+ nl
  +:+ "<pre>" +:+ PyHtml.escape (format_exception E e) +:+ "</pre>".

(** The error is logged, the report is built, and [update.message] is
    asked to send it: an update without a message raises there. *)
Definition error_handler (u : update) (e : exn) : M unit :=
  logging ERROR "Exception while handling an update:";;
  let message := error_report u e in
  if is_message u
  then tg_reply E (ReplyText message)
  else raise AttributeError.

(** ** groq_chat/bot.py: the [/audio] command of its [start_bot] *)

Definition audio_command (user_id : string) : M unit :=
  ud ← get_ctx;
  let current_setting := voice_setting ud in
  put_ctx (set_voice_enabled (negb current_setting) ud);;
  ud' ← get_ctx;
  let status := if voice_setting ud' then "enabled" else "disabled" in
  logging INFO ("User " +:+ user_id +:+ ": Voice responses toggled to "
                +:+ status +:+ ".");;
  tg_reply E (ReplyText ("Voice responses are now " +:+ status +:+ ".")).

End Handlers.

(** ** Parts of the repository modelled from its specification *)

(** Modelled from the spec: the lazy sequence of fragments of section 4.2,
    which groq_chat/groq_chat.py (missing) produces; it yields the
    fragments in order, then terminates normally, leaving the session
    [ud_completed], or fails, the session being [ud] throughout. *)
Fixpoint stream_fragments (ud ud_completed : user_data) (fragments : list string)
    (completed : bool) : gen_trace :=
  match fragments with
  | [] => if completed then GenReturn ud_completed else GenRaise ud
  | fragment :: fragments' =>
      GenYield ud fragment (stream_fragments ud ud_completed fragments' completed)
  end.

(** Modelled from the spec: [generate_response] of groq_chat/groq_chat.py,
    which is missing.  The request to the completion service carries the
    history, replayed as it stands and followed by the user turn, and the
    model identifier (sections 3, 4.2 and 6).  A turn that fails leaves the
    history as it was before the turn began (sections 4.4 and 8); after a
    completed turn the user turn precedes the assistant turn (section 8),
    and [message_handler] adds the assistant turn only.  So the generator
    streams the fragments of [stream(history, modelId)] and records the
    user turn in the history when the stream has ended normally. *)
Definition generate_response (E : env) (message : string) (ud : user_data)
    : gen_trace :=
  let request := history ud ++ [Turn "user" message] in
  let '(fragments, completed) := completion E request (model ud) in
  stream_fragments ud (set_messages request ud) fragments completed.

Module HtmlFormat.

(** Modelled from the spec: the escaping of groq_chat/html_format.py,
    which is missing, for the three characters HTML reserves. *)
Definition escape_char (c : ascii) : string :=
  if Ascii.eqb c "&" then "&amp;"
  else if Ascii.eqb c "<" then "&lt;"
  else if Ascii.eqb c ">" then "&gt;"
  else String c EmptyString.

(** Modelled from the spec: the rendering of groq_chat/html_format.py,
    which is missing, read from left to right; [bold] tells whether a span
    opened by [**] is still open. *)
Fixpoint render (s : string) (bold : bool) : string :=
  match s with
  | EmptyString => if bold then "</b>" else EmptyString
  | String c s' =>
      match s' with
      | String c' s'' =>
          if Ascii.eqb c "*" && Ascii.eqb c' "*"
          then (if bold then "</b>" else "<b>") +:+ render s'' (negb bold)
          else escape_char c +:+ render s' bold
      | EmptyString => escape_char c +:+ render s' bold
      end
  end.

(** Modelled from the spec: [format_message] of groq_chat/html_format.py,
    which is missing, for the markup the examples below use.  Section 4.3:
    the text is escaped for the transport, a span between two [**] markers
    is bold, and a span still open where the text ends is rendered as if it
    were closed there. *)
Definition format_message (s : string) : string := render s false.

End HtmlFormat.

(** ** The handler table and its dispatch

    [Application], [CommandHandler], [MessageHandler],
    [CallbackQueryHandler] and [ConversationHandler] belong to
    python-telegram-bot; what follows is the part of their dispatch that
    [start_bot] relies on. *)

(** The filters of groq_chat/filters.py, which is missing. *)
Inductive filter := AuthFilter | MessageFilter.

(** Modelled from the spec: [AuthFilter] and [MessageFilter] of
    groq_chat/filters.py.  Section 6: [isAuthorized(userId)] decides who
    may use the bot, and the plain-message entry point checks it as the
    command entry points do; [MessageFilter] is then the authorization
    filter restricted to text messages that are no command. *)
Definition check_filter (isAuthorized : string -> bool) (f : filter)
    (u : update) : bool :=
  match f with
  | AuthFilter => isAuthorized (effective_user u)
  | MessageFilter =>
      isAuthorized (effective_user u)
      && match u with TextUpdate _ _ => true | _ => false end
  end.

(** The callbacks registered by [start_bot]. *)
Inductive callback :=
  | cb_start | cb_help_command | cb_new_command_handler
  | cb_model_command_handler | cb_info_command_handler
  | cb_audio_command_handler      (* handlers.py *)
  | cb_audio_command              (* the local function of bot.py *)
  | cb_start_system_prompt | cb_get_system_prompt
  | cb_cancelled_system_prompt
  | cb_message_handler | cb_change_model_callback_handler.

Global Instance callback_eq_dec : EqDecision callback.
Proof. solve_decision. Defined.

Inductive basic_handler :=
  | CommandHandler (command : string) (cb : callback) (filters : filter)
  | MessageHandler (filters : filter) (cb : callback)
  | CallbackQueryHandler (cb : callback) (pattern_prefix : string).

Inductive handler :=
  | Plain (h : basic_handler)
  | ConversationHandler (entry_points : list basic_handler)
      (states : list (Z * list basic_handler))
      (fallbacks : list basic_handler).

(** [start_bot] of handlers.py, lines 277 to 306. *)
Definition handlers_start_bot : list handler :=
  [ Plain (CommandHandler "start" cb_start AuthFilter);
    Plain (CommandHandler "help" cb_help_command AuthFilter);
    Plain (CommandHandler "new" cb_new_command_handler AuthFilter);
    Plain (CommandHandler "model" cb_model_command_handler AuthFilter);
    Plain (CommandHandler "info" cb_info_command_handler AuthFilter);
    Plain (CommandHandler "audio" cb_audio_command_handler AuthFilter);
    ConversationHandler
      [CommandHandler "system_prompt" cb_start_system_prompt AuthFilter]
      [ (SYSTEM_PROMPT_SP, [MessageHandler MessageFilter cb_get_system_prompt]);
        (CANCEL_SP, [CommandHandler "cancel" cb_cancelled_system_prompt AuthFilter]) ]
      [CommandHandler "cancel" cb_cancelled_system_prompt AuthFilter];
    Plain (MessageHandler MessageFilter cb_message_handler);
    Plain (CallbackQueryHandler cb_change_model_callback_handler "change_model_") ].

(** [start_bot] of bot.py, lines 69 to 114. *)
Definition bot_start_bot : list handler :=
  [ Plain (CommandHandler "start" cb_start AuthFilter);
    Plain (CommandHandler "help" cb_help_command AuthFilter);
    Plain (CommandHandler "new" cb_new_command_handler AuthFilter);
    Plain (CommandHandler "model" cb_model_command_handler AuthFilter);
    Plain (CommandHandler "info" cb_info_command_handler AuthFilter);
    Plain (CommandHandler "audio" cb_audio_command AuthFilter);
    ConversationHandler
      [CommandHandler "system_prompt" cb_start_system_prompt AuthFilter]
      [ (SYSTEM_PROMPT_SP, [MessageHandler MessageFilter cb_get_system_prompt]);
        (CANCEL_SP, [CommandHandler "cancel" cb_cancelled_system_prompt AuthFilter]) ]
      [CommandHandler "cancel" cb_cancelled_system_prompt AuthFilter];
    Plain (MessageHandler MessageFilter cb_message_handler);
    Plain (CallbackQueryHandler cb_change_model_callback_handler "change_model_") ].

Section Dispatch.

Context (isAuthorized : string -> bool).

(** [check_update] of the three plain handler classes.  A
    [CommandHandler] keeps the names it is given in lower case and
    compares them with the command of the message in lower case. *)
Definition check_basic (h : basic_handler) (u : update) : option callback :=
  match h with
  | CommandHandler command cb filters =>
      match u with
      | CommandUpdate _ command' =>
          if bool_decide (PyStr.lower command = PyStr.lower command')
             && check_filter isAuthorized filters u
          then Some cb else None
      | _ => None
      end
  | MessageHandler filters cb =>
      if is_message u && check_filter isAuthorized filters u
      then Some cb else None
  | CallbackQueryHandler cb pattern_prefix =>
      match u with
      | CallbackQueryUpdate _ data =>
          if String.prefix pattern_prefix data then Some cb else None
      | _ => None
      end
  end.

Fixpoint first_match (hs : list basic_handler) (u : update) : option callback :=
  match hs with
  | [] => None
  | h :: hs' =>
      match check_basic h u with
      | Some cb => Some cb
      | None => first_match hs' u
      end
  end.

Fixpoint state_handlers (states : list (Z * list basic_handler)) (s : Z)
    : list basic_handler :=
  match states with
  | [] => []
  | (s', hs) :: states' => if decide (s = s') then hs else state_handlers states' s
  end.

(** [check_update] of a handler for a user whose conversation is in
    [state] ([None]: no conversation).  The flag tells whether the callback
    runs inside the conversation, its return value then being the next
    state. *)
Definition check_update (state : option Z) (h : handler) (u : update)
    : option (callback * bool) :=
  match h with
  | Plain b => (fun cb => (cb, false)) <$> check_basic b u
  | ConversationHandler entry_points states fallbacks =>
      (fun cb => (cb, true)) <$>
        match state with
        | None => first_match entry_points u
        | Some s =>
            match first_match (state_handlers states s) u with
            | Some cb => Some cb
            | None => first_match fallbacks u
            end
        end
  end.

(** [Application.process_update]: the first handler of the table that
    accepts the update handles it. *)
Fixpoint select (table : list handler) (state : option Z) (u : update)
    : option (callback * bool) :=
  match table with
  | [] => None
  | h :: table' =>
      match check_update state h u with
      | Some r => Some r
      | None => select table' state u
      end
  end.

End Dispatch.

(** ** The running bot *)

Record bot := Bot {
  user_datas : gmap string user_data;  (* [Application.user_data], by user *)
  conversations : gmap string Z;       (* state of the prompt-change flow, by user *)
  bot_sent : outbox;
  bot_scheduled : list tg_call;
  bot_log : list (log_level * string);
  bot_files : gmap string string
}.

Definition empty_bot : bot := Bot ∅ ∅ [] [] [] ∅.

(** The session of a user; a user never seen has the empty dict. *)
Definition session (b : bot) (user : string) : user_data :=
  default empty_user_data (user_datas b !! user).

Section Application.

Context (E : env).
Context (gen : string -> user_data -> gen_trace).

(** A callback applied to an update; the result is what the coroutine
    returns, [None] standing for Python's [None].  A callback that reads
    [update.message] or [update.callback_query] of an update that has none
    raises [AttributeError]. *)
Definition run_callback (cb : callback) (u : update) : M (option Z) :=
  match cb with
  | cb_change_model_callback_handler =>
      match u with
      | CallbackQueryUpdate _ data =>
          change_model_callback_handler E data;; mret None
      | _ => raise AttributeError
      end
  | _ =>
      if is_message u then
        match cb with
        | cb_start => start E (effective_user u);; mret None
        | cb_help_command => help_command E;; mret None
        | cb_new_command_handler => new_command_handler E;; mret None
        | cb_model_command_handler => model_command_handler E;; mret None
        | cb_info_command_handler => info_command_handler E;; mret None
        | cb_audio_command_handler => audio_command_handler E;; mret None
        | cb_audio_command => audio_command E (effective_user u);; mret None
        | cb_start_system_prompt => s ← start_system_prompt E; mret (Some s)
        | cb_get_system_prompt =>
            s ← get_system_prompt E (message_text u); mret (Some s)
        | cb_cancelled_system_prompt => s ← cancelled_system_prompt E; mret (Some s)
        | cb_message_handler => message_handler E gen (message_text u);; mret None
        | cb_change_model_callback_handler => mret None
        end
      else raise AttributeError
  end.

(** The state a conversation takes when its callback returns [r]. *)
Definition update_state (user : string) (r : option Z) (c : gmap string Z)
    : gmap string Z :=
  match r with
  | None => c
  | Some s => if decide (s = END) then delete user c else <[user := s]> c
  end.

Definition enter (b : bot) (user : string) : world :=
  World (session b user) (bot_sent b) (bot_scheduled b) (bot_log b) (bot_files b).

Definition leave (b : bot) (user : string) (c : gmap string Z) (w : world) : bot :=
  Bot (<[user := ctx w]> (user_datas b)) c (sent w) (scheduled w) (log w) (files w).

(** One update through the application: dispatch, callback, and the
    error handler when the callback raises; a conversation whose callback
    raises keeps its state, and an exception of the error handler itself
    is dropped. *)
Definition process_update (table : list handler) (u : update) (b : bot) : bot :=
  let user := effective_user u in
  match select (isAuthorized E) table (conversations b !! user) u with
  | None => b
  | Some (cb, in_conversation) =>
      match run_callback cb u (enter b user) with
      | (Ret r, w') =>
          leave b user
            (if in_conversation : bool
             then update_state user r (conversations b)
             else conversations b) w'
      | (Raise e, w') =>
          leave b user (conversations b) (error_handler E u e w').2
      end
  end.

End Application.

(** The bot with the generator of groq_chat/groq_chat.py. *)
Definition bot_step (E : env) (table : list handler) (u : update) (b : bot) : bot :=
  process_update E (generate_response E) table u b.

Definition bot_run (E : env) (table : list handler) (us : list update) (b : bot) : bot :=
  foldl (fun b u => bot_step E table u b) b us.

(** ** Notions used in the statements *)

(** The state a computation leaves. *)
Definition exec {A} (m : M A) (w : world) : world := (m w).2.

(** The invariant of a session (section 3 of the specification). *)
Definition session_invariant (ud : user_data) : Prop :=
  match system_prompt ud with
  | Some p => history ud !! 0 = Some (Turn "system" p)
  | None => ∀ t, t ∈ history ud → role t ≠ "system"
  end.

(** Every session of the bot satisfies the invariant. *)
Definition sessions_ok (b : bot) : Prop :=
  ∀ user, session_invariant (session b user).

(** The session after lines 184 to 188 of [message_handler]. *)
Definition with_defaults (ud : user_data) : user_data :=
  UserData (system_prompt ud) (Some (history ud))
           (Some (default "llama-3.1-8b-instant" (model ud))) (voice_enabled ud).

Definition add_turn (t : turn) (ud : user_data) : user_data :=
  set_messages (history ud ++ [t]) ud.

(** The transport accepts the placeholder that [message_handler] sends
    from the state [w]. *)
Definition placeholder_accepted (E : env) (w : world) : Prop :=
  reply_outcome E (sent w) (ReplyText "Generating response...") = None.

(** The state in which the outer [try] of [message_handler] starts: the
    defaults are set, the placeholder has been accepted and the chat
    action has been scheduled. *)
Definition enter_turn (w : world) : world :=
  World (with_defaults (ctx w))
        (sent w ++ [(ReplyText "Generating response...", None)])
        (scheduled w ++ [SendChatAction "typing"])
        (log w) (files w).

(** A turn fails when the body of the outer [try] raises. *)
Definition turn_failed (E : env) (gen : string -> user_data -> gen_trace)
    (message : string) (w : world) : bool :=
  match (message_body E gen message (enter_turn w)).1 with
  | Ret _ => false
  | Raise _ => true
  end.

(** The parts a run of the generator yields. *)
Fixpoint trace_parts (t : gen_trace) : list string :=
  match t with
  | GenYield _ message_part rest => message_part :: trace_parts rest
  | GenReturn _ | GenRaise _ => []
  end.

(** The rendered accumulated text after each part that is not empty. *)
Fixpoint renders (render : string -> string) (parts : list string)
    (raw_text : string) : list string :=
  match parts with
  | [] => []
  | part :: parts' =>
      if PyStr.truthy part
      then render (raw_text +:+ part) :: renders render parts' (raw_text +:+ part)
      else renders render parts' raw_text
  end.

(** The texts pushed as edits one after the other, up to the first one
    the transport rejects. *)
Fixpoint push_edits (E : env) (ob : outbox) (texts : list string) : outbox :=
  match texts with
  | [] => ob
  | text :: texts' =>
      let o := edit_text_outcome E ob text in
      let ob' := ob ++ [(EditText text, o)] in
      match o with
      | None => push_edits E ob' texts'
      | Some _ => ob'
      end
  end.

Definition accepted (entry : tg_call * option tg_error) : Prop := entry.2 = None.

(** No edit carries the text of the edit accepted last before it:
    [last] is that text, [None] before the first edit. *)
Fixpoint edits_on_change (last : option string) (ob : outbox) : bool :=
  match ob with
  | [] => true
  | (EditText text, o) :: ob' =>
      negb (bool_decide (last = Some text))
      && edits_on_change (match o with None => Some text | Some _ => last end) ob'
  | _ :: ob' => edits_on_change last ob'
  end.

(** The audio step of a completed turn met a failure: language detection,
    synthesis, reading the file back, or the upload. *)
Definition detection_failed (E : env) (text : string) : Prop :=
  detect E text = None.

Definition synthesis_failed (E : env) (text : string) : Prop :=
  ∃ leftover, gTTS_save E text (default "en" (detect E text)) = TtsError leftover.

Definition upload_failed (new : outbox) : Prop :=
  ∃ audio err, (ReplyVoice audio, Some err) ∈ new.

(** What an awaited call returns or raises, from the answer of the
    transport. *)
Definition outcome_result (o : option tg_error) : result unit :=
  match o with
  | None => Ret tt
  | Some err => Raise (TelegramError err)
  end.

(** The session after a prompt submission: the prompt is [p], the history
    is the reset one, the other keys are as they were. *)
Definition prompt_session (p : option string) (ud : user_data) : user_data :=
  UserData p
    (Some match p with
          | Some prompt => [Turn "system" prompt]
          | None => []
          end)
    (model ud) (voice_enabled ud).

(** What a prompt submission makes of its text. *)
Definition submitted_prompt (text : string) : option string :=
  if bool_decide (PyStr.strip (PyStr.lower text) = "clear") then None else Some text.

Definition prompt_confirmation (text : string) : tg_call :=
  ReplyText (if bool_decide (PyStr.strip (PyStr.lower text) = "clear")
             then "System prompt cleared." else "System prompt changed.").

(** ** Environments of the examples *)

(** The text the chat shows: that of the last accepted message or edit. *)
Fixpoint shown_text (ob : outbox) (shown : option string) : option string :=
  match ob with
  | [] => shown
  | (ReplyText text, None) :: ob' | (EditText text, None) :: ob' =>
      shown_text ob' (Some text)
  | _ :: ob' => shown_text ob' shown
  end.

(** A transport that accepts every call. *)
Definition accept_all : outbox -> string -> option tg_error := fun _ _ => None.

(** A transport that answers [NotModified] to an edit with the text the
    message already shows. *)
Definition reject_unchanged : outbox -> string -> option tg_error := fun ob text =>
  if bool_decide (shown_text ob None = Some text) then Some NotModified else None.

Definition example_env (edit : outbox -> string -> option tg_error)
    (fragments : list string) (completed : bool) : env :=
  {| format_message := HtmlFormat.format_message;
     reply_outcome := fun _ _ => None;
     edit_text_outcome := edit;
     reply_voice_outcome := accept_all;
     detect := fun _ => Some "en";
     gTTS_save := fun text _ => TtsSaved ("wav:" +:+ text);
     completion := fun _ _ => (fragments, completed);
     isAuthorized := fun user => bool_decide (user = "alice");
     json_dumps := fun _ => "{}";
     format_exception := fun _ => "Traceback" |}.

(** The environment [E] with a transport that answers [o] to the
    replies. *)
Definition with_replies (o : outbox -> tg_call -> option tg_error) (E : env) : env :=
  {| format_message := format_message E;
     reply_outcome := o;
     edit_text_outcome := edit_text_outcome E;
     reply_voice_outcome := reply_voice_outcome E;
     detect := detect E;
     gTTS_save := gTTS_save E;
     completion := completion E;
     isAuthorized := isAuthorized E;
     json_dumps := json_dumps E;
     format_exception := format_exception E |}.

(** A transport that accepts the replies until it has taken [n] calls,
    and answers [RetryAfter] to the replies from then on. *)
Definition flood_after (n : nat) : outbox -> tg_call -> option tg_error := fun ob _ =>
  if bool_decide (length ob < n) then None else Some RetryAfter.

Definition fresh_world : world := World empty_user_data [] [] [] ∅.

(** An environment in which neither language detection nor speech
    synthesis works, and no audio file is left behind. *)
Definition voiceless_env (fragments : list string) : env :=
  {| format_message := HtmlFormat.format_message;
     reply_outcome := fun _ _ => None;
     edit_text_outcome := accept_all;
     reply_voice_outcome := accept_all;
     detect := fun _ => None;
     gTTS_save := fun _ _ => TtsError None;
     completion := fun _ _ => (fragments, true);
     isAuthorized := fun user => bool_decide (user = "alice");
     json_dumps := fun _ => "{}";
     format_exception := fun _ => "Traceback" |}.

(** A session with a system prompt, as a prompt submission leaves it. *)
Definition briefed_world : world :=
  World (prompt_session (Some "Be brief.") empty_user_data) [] [] [] ∅.

(** ** Notions used in the further properties *)

(** The parts of a run put together, in the order of their arrival. *)
Fixpoint concat_parts (parts : list string) : string :=
  match parts with
  | [] => EmptyString
  | part :: parts' => part +:+ concat_parts parts'
  end.

(** The handler tables of the two [start_bot] functions. *)
Definition tables : list (list handler) := [handlers_start_bot; bot_start_bot].

(** The commands registered outside the prompt-change conversation. *)
Definition plain_commands : list string :=
  ["start"; "help"; "new"; "model"; "info"; "audio"].

(** The text [change_model_callback_handler] puts in place of the
    keyboard. *)
Definition model_changed_text (m : string) : string :=
  "Model changed to `" +:+ m +:+ "`. " +:+ nl +:+ nl
  +:+ "Send /new to start a new chat session.".

(** No conversation is in a state other than [SYSTEM_PROMPT_SP]. *)
Definition conversations_ok (b : bot) : Prop :=
  ∀ user, conversations b !! user = None
          ∨ conversations b !! user = Some SYSTEM_PROMPT_SP.

(** The environment of the two-fragment answer. *)
Definition hello_env : env := example_env accept_all ["Hi"; " there"] true.

(** A transport that rejects every edit. *)
Definition reject_all : outbox -> string -> option tg_error :=
  fun _ _ => Some NotModified.

(** An environment whose synthesis works for the text ["Hi"] only, and
    whose completion service answers ["Hi"] to a first message and
    ["Bye"] to the later ones. *)
Definition flaky_voice_env : env :=
  {| format_message := HtmlFormat.format_message;
     reply_outcome := fun _ _ => None;
     edit_text_outcome := accept_all;
     reply_voice_outcome := accept_all;
     detect := fun _ => Some "en";
     gTTS_save := fun text _ =>
       if bool_decide (text = "Hi") then TtsSaved "wav:Hi" else TtsError None;
     completion := fun h _ =>
       if bool_decide (length h ≤ 1) then (["Hi"], true) else (["Bye"], true);
     isAuthorized := fun user => bool_decide (user = "alice");
     json_dumps := fun _ => "{}";
     format_exception := fun _ => "Traceback" |}.

(** The bot after [alice] sent the command [/system_prompt]. *)
Definition awaiting_bot : bot :=
  bot_step hello_env handlers_start_bot (CommandUpdate "alice" "system_prompt")
    empty_bot.

(** The route of a command whose name in lower case is [name], for an
    authorized user whose conversation is in [state]; [audio] is the
    callback the table registers for the audio command. *)
Definition route_command (audio : callback) (state : option Z) (name : string)
    : option (callback * bool) :=
  if bool_decide (name = "start") then Some (cb_start, false)
  else if bool_decide (name = "help") then Some (cb_help_command, false)
  else if bool_decide (name = "new") then Some (cb_new_command_handler, false)
  else if bool_decide (name = "model") then Some (cb_model_command_handler, false)
  else if bool_decide (name = "info") then Some (cb_info_command_handler, false)
  else if bool_decide (name = "audio") then Some (audio, false)
  else match state with
       | None =>
           if bool_decide (name = "system_prompt")
           then Some (cb_start_system_prompt, true) else None
       | Some _ =>
           if bool_decide (name = "cancel")
           then Some (cb_cancelled_system_prompt, true) else None
       end.

(** The handlers that follow the plain commands in both tables. *)
Definition conversation_tail : list handler :=
  [ ConversationHandler
      [CommandHandler "system_prompt" cb_start_system_prompt AuthFilter]
      [ (SYSTEM_PROMPT_SP, [MessageHandler MessageFilter cb_get_system_prompt]);
        (CANCEL_SP, [CommandHandler "cancel" cb_cancelled_system_prompt AuthFilter]) ]
      [CommandHandler "cancel" cb_cancelled_system_prompt AuthFilter];
    Plain (MessageHandler MessageFilter cb_message_handler);
    Plain (CallbackQueryHandler cb_change_model_callback_handler "change_model_") ].

(** * Properties *)

Ltac run_monad :=
  cbv [mbind mret M_bind M_ret get_ctx put_ctx modify_ctx logging tg_reply
       tg_try run_coroutine_threadsafe raise try_except read_file write_file exec];
  cbn [ctx sent scheduled log files fst snd].

(** Case analysis on which of the two handler tables [Ht] speaks of. *)
Ltac pick_table Ht :=
  unfold tables in Ht;
  apply elem_of_cons in Ht as [-> | Ht];
  [|apply list_elem_of_singleton in Ht as ->].

(** ** Python text on examples *)

Example strip_lower_clear :
  PyStr.strip (PyStr.lower "  CLeaR ") = "clear"
  ∧ PyStr.strip (PyStr.lower "clear it") ≠ "clear".
Proof. split; [reflexivity|]. vm_compute. discriminate. Qed.

Example remove_all_prefix :
  remove_all "change_model_" "change_model_llama3-8b-8192" 0 = "llama3-8b-8192".
Proof. reflexivity. Qed.

(** ** The handlers as state transformers *)

Section HandlerFacts.

Context (E : env) (gen : string -> user_data -> gen_trace).

Lemma new_chat_eq w :
  new_chat w =
  (Ret tt, World (prompt_session (system_prompt (ctx w)) (ctx w))
                 (sent w) (scheduled w) (log w) (files w)).
Proof.
  unfold new_chat, prompt_session, set_messages. run_monad.
  by destruct (system_prompt (ctx w)) eqn:Hp; cbn; rewrite ?Hp.
Qed.

(** A reply adds its call to the outbox with the answer of the
    transport, and raises when that answer is an error. *)
Lemma tg_reply_eq c w :
  tg_reply E c w =
  (outcome_result (reply_outcome E (sent w) c),
   World (ctx w) (sent w ++ [(c, reply_outcome E (sent w) c)])
         (scheduled w) (log w) (files w)).
Proof. unfold tg_reply, tg_try, outcome_result. by destruct (reply_outcome E _ _). Qed.

(** A prompt submission whose confirmation is accepted resets the
    session and ends the flow; one whose confirmation is rejected raises
    with the prompt written and the history as it was. *)
Lemma get_system_prompt_eq text w :
  get_system_prompt E (Some text) w =
  match reply_outcome E (sent w) (prompt_confirmation text) with
  | None =>
      (Ret END,
       World (prompt_session (submitted_prompt text) (ctx w))
             (sent w ++ [(prompt_confirmation text, None)])
             (scheduled w) (log w) (files w))
  | Some err =>
      (Raise (TelegramError err),
       World (set_system_prompt (submitted_prompt text) (ctx w))
             (sent w ++ [(prompt_confirmation text, Some err)])
             (scheduled w) (log w) (files w))
  end.
Proof.
  unfold get_system_prompt, submitted_prompt, prompt_confirmation.
  destruct (decide (PyStr.strip (PyStr.lower text) = "clear")) as [Hd|Hd].
  - rewrite (bool_decide_eq_true_2 _ Hd). cbv [mbind M_bind].
    unfold modify_ctx. cbv [mbind M_bind get_ctx put_ctx]. rewrite tg_reply_eq.
    cbn [ctx sent scheduled log files].
    destruct (reply_outcome E _ _); cbn [outcome_result]; [done|].
    by rewrite new_chat_eq.
  - rewrite (bool_decide_eq_false_2 _ Hd). cbv [mbind M_bind].
    unfold modify_ctx. cbv [mbind M_bind get_ctx put_ctx]. rewrite tg_reply_eq.
    cbn [ctx sent scheduled log files].
    destruct (reply_outcome E _ _); cbn [outcome_result]; [done|].
    by rewrite new_chat_eq.
Qed.

Lemma message_prelude_eq w :
  message_prelude E w =
  (outcome_result (reply_outcome E (sent w) (ReplyText "Generating response...")),
   World (with_defaults (ctx w))
         (sent w ++ [(ReplyText "Generating response...",
                      reply_outcome E (sent w) (ReplyText "Generating response..."))])
         (scheduled w) (log w) (files w)).
Proof.
  unfold message_prelude, with_defaults, history. run_monad.
  destruct w as [[sp ms md ve] ob sc lg fs]; cbn.
  unfold outcome_result. destruct md, ms; cbn; by destruct (reply_outcome E ob _).
Qed.

(** [text_to_wav] always returns; it touches the log and the files only,
    and each failure inside it leaves its record in the log. *)
Lemma text_to_wav_log text filename w :
  ∃ lg fs,
    text_to_wav E text filename w
    = (Ret tt, World (ctx w) (sent w) (scheduled w) (log w ++ lg) fs)
    ∧ (detection_failed E text →
       (ERROR, "Language detection failed. Defaulting to English.") ∈ lg)
    ∧ (synthesis_failed E text →
       (ERROR, "Error during text-to-speech conversion") ∈ lg).
Proof.
  unfold text_to_wav, detection_failed, synthesis_failed. run_monad.
  destruct (detect E text) as [l|]; cbn [default];
    (match goal with |- context [gTTS_save E ?a ?b] =>
       destruct (gTTS_save E a b) as [a'|[d|]] eqn:Hg end);
    cbn; rewrite <- ?app_assoc; eexists _, _; (split; [reflexivity|]);
    (split; [intros H | intros [leftover H]]); try congruence;
    rewrite ?elem_of_app, ?elem_of_cons; auto.
Qed.

(** The voice step never raises and leaves the session alone. *)
Lemma voice_answer_eq full w :
  ∃ w', voice_answer E full w = (Ret tt, w') ∧ ctx w' = ctx w.
Proof.
  unfold voice_answer. cbv [mbind M_bind get_ctx].
  destruct (voice_setting (ctx w)); [|by eexists].
  unfold try_except. cbv [mbind M_bind].
  destruct (text_to_wav_log full "temp_audio.wav" w) as (lg & fs & -> & _).
  run_monad. destruct (fs !! "temp_audio.wav"); cbn; [|eauto].
  match goal with |- context [reply_voice_outcome E ?a ?b] =>
    destruct (reply_voice_outcome E a b) end; cbn; eauto.
Qed.

Lemma message_body_eq message w :
  message_body E gen message w =
  match stream_answer E gen message w with
  | (Ret full, w1) =>
      voice_answer E full
        (World (add_turn (Turn "assistant" full) (ctx w1)) (sent w1) (scheduled w1)
               (log w1) (files w1))
  | (Raise e, w1) => (Raise e, w1)
  end.
Proof.
  unfold message_body. cbv [mbind M_bind].
  destruct (stream_answer E gen message w) as [[full|e] w1]; [|done].
  unfold modify_ctx. cbv [mbind M_bind get_ctx put_ctx]. done.
Qed.

(** The two ways out of a turn with a message that is not empty, once
    the placeholder is out. *)
Lemma message_handler_eq message w :
  placeholder_accepted E w →
  PyStr.truthy message = true →
  message_handler E gen (Some message) w =
  match stream_answer E gen message (enter_turn w) with
  | (Ret full, w1) =>
      voice_answer E full
        (World (add_turn (Turn "assistant" full) (ctx w1)) (sent w1) (scheduled w1)
               (log w1) (files w1))
  | (Raise _, w1) =>
      tg_try (EditText failure_notice)
             (fun ob => edit_text_outcome E ob failure_notice)
             (World (ctx w1) (sent w1) (scheduled w1)
                    (log w1 ++ [(ERROR, "Error processing the request")]) (files w1))
  end.
Proof.
  intros Hp Hm. unfold message_handler. rewrite Hm.
  unfold placeholder_accepted in Hp.
  cbv [mbind M_bind]. rewrite message_prelude_eq, !Hp. cbn [outcome_result].
  unfold run_coroutine_threadsafe at 1. cbn [ctx sent scheduled log files].
  unfold enter_turn, try_except. rewrite message_body_eq.
  cbv [mbind M_bind logging]. cbn [ctx sent scheduled log files].
  destruct (stream_answer E gen message _) as [[full|e] w1]; [|reflexivity].
  by destruct (voice_answer_eq full
    (World (add_turn (Turn "assistant" full) (ctx w1)) (sent w1) (scheduled w1)
           (log w1) (files w1)))
    as (w2 & -> & _).
Qed.

Lemma message_handler_empty text w :
  text = None ∨ text = Some EmptyString →
  message_handler E gen text w = message_prelude E w.
Proof.
  intros [-> | ->]; unfold message_handler;
    cbv [mbind M_bind mret M_ret PyStr.truthy];
    by destruct (message_prelude E w) as [[[]|e] w'].
Qed.

(** A rejected placeholder ends the handler where it is awaited, outside
    the [try]. *)
Lemma message_handler_rejected text w err :
  reply_outcome E (sent w) (ReplyText "Generating response...") = Some err →
  message_handler E gen text w =
  (Raise (TelegramError err),
   World (with_defaults (ctx w))
         (sent w ++ [(ReplyText "Generating response...", Some err)])
         (scheduled w) (log w) (files w)).
Proof.
  intros Ho. unfold message_handler. cbv [mbind M_bind].
  by rewrite message_prelude_eq, Ho.
Qed.

(** ** The streaming loop *)

Lemma for_message_part_sent t full w :
  sent (exec (for_message_part E t full) w) =
  push_edits E (sent w) (renders (format_message E) (trace_parts t) full).
Proof.
  revert full w. induction t as [ud' part rest IH | ud' | ud']; intros full w; cbn.
  - unfold exec in *. cbv [mbind M_bind put_ctx]. cbn [ctx sent scheduled log files].
    destruct (PyStr.truthy part); cbn [push_edits].
    + cbv [mbind M_bind tg_try]. cbn [sent ctx scheduled log files].
      destruct (edit_text_outcome E (sent w) _); [done|].
      by rewrite IH.
    + by rewrite IH.
  - done.
  - done.
Qed.

(** The loop adds edits to the outbox and nothing else; it raises a
    transport error exactly when its last edit was rejected, every edit
    before that one having been accepted. *)
Lemma for_message_part_run t full w :
  ∃ new, sent (exec (for_message_part E t full) w) = sent w ++ new
    ∧ log (exec (for_message_part E t full) w) = log w
    ∧ files (exec (for_message_part E t full) w) = files w
    ∧ scheduled (exec (for_message_part E t full) w) = scheduled w
    ∧ match (for_message_part E t full w).1 with
      | Raise (TelegramError err) =>
          ∃ new' text, new = new' ++ [(EditText text, Some err)] ∧ Forall accepted new'
      | _ => Forall accepted new
      end.
Proof.
  revert full w. induction t as [ud' part rest IH | ud' | ud']; intros full w; cbn.
  - unfold exec in *. cbv [mbind M_bind put_ctx]. cbn [ctx sent scheduled log files].
    destruct (PyStr.truthy part).
    + cbv [mbind M_bind tg_try]. cbn [sent ctx scheduled log files].
      destruct (edit_text_outcome E (sent w) _) as [err|] eqn:Ho.
      * cbn. eexists [_]. do 4 (split; [reflexivity|]).
        eexists [], _. split; [reflexivity|constructor].
      * match goal with |- context [for_message_part E rest ?f ?w'] =>
          destruct (IH f w') as (new & Hs & Hl & Hf & Hsc & Hr) end.
        cbn [sent scheduled log files] in *. eexists (_ :: new).
        rewrite Hs, Hl, Hf, Hsc, <- app_assoc. split_and!; try done.
        destruct (for_message_part E rest _ _).1 as [|[]];
          try (apply Forall_cons; by split).
        destruct Hr as (new' & text & -> & Hacc).
        eexists (_ :: new'), text. split; [done|]. apply Forall_cons; by split.
    + match goal with |- context [for_message_part E rest ?f ?w'] =>
          destruct (IH f w') as (new & Hs & Hl & Hf & Hsc & Hr) end.
      cbn [sent scheduled log files] in *. eauto 6.
  - exists []. run_monad. rewrite app_nil_r. by repeat split.
  - exists []. run_monad. rewrite app_nil_r. by repeat split.
Qed.

Lemma stream_answer_run message w :
  ∃ new, sent (exec (stream_answer E gen message) w) = sent w ++ new
    ∧ log (exec (stream_answer E gen message) w) = log w
    ∧ files (exec (stream_answer E gen message) w) = files w
    ∧ scheduled (exec (stream_answer E gen message) w) = scheduled w
    ∧ match (stream_answer E gen message w).1 with
      | Raise (TelegramError err) =>
          ∃ new' text, new = new' ++ [(EditText text, Some err)] ∧ Forall accepted new'
      | _ => Forall accepted new
      end.
Proof. apply for_message_part_run. Qed.

(** A turn fails exactly when the streaming loop raises: nothing after
    the loop can. *)
Lemma turn_failed_stream message w :
  turn_failed E gen message w =
  match (stream_answer E gen message (enter_turn w)).1 with
  | Ret _ => false
  | Raise _ => true
  end.
Proof.
  unfold turn_failed. rewrite message_body_eq.
  destruct (stream_answer E gen message (enter_turn w)) as [[full|e] w1]; [|done].
  match goal with |- context [voice_answer E full ?w'] =>
    by destruct (voice_answer_eq full w') as (w2 & -> & _) end.
Qed.

(** What a failed turn leaves: the state of the loop where it raised,
    one log record, and the attempt to show the failure notice. *)
Lemma failed_turn_eq message w :
  placeholder_accepted E w →
  PyStr.truthy message = true →
  turn_failed E gen message w = true →
  let w1 := exec (stream_answer E gen message) (enter_turn w) in
  exec (message_handler E gen (Some message)) w =
  World (ctx w1)
        (sent w1 ++ [(EditText failure_notice,
                      edit_text_outcome E (sent w1) failure_notice)])
        (scheduled w1)
        (log w1 ++ [(ERROR, "Error processing the request")]) (files w1).
Proof.
  intros Hp Hm Hf. rewrite turn_failed_stream in Hf. unfold exec.
  rewrite message_handler_eq by done.
  destruct (stream_answer E gen message (enter_turn w)) as [[full|e] w1]; [done|].
  unfold tg_try. cbn [ctx sent scheduled log files snd].
  by destruct (edit_text_outcome E (sent w1) failure_notice).
Qed.

End HandlerFacts.

(** ** The generator of groq_chat/groq_chat.py *)

Lemma for_message_part_stream E ud ud' fragments completed full w :
  ctx (exec (for_message_part E (stream_fragments ud ud' fragments completed) full) w)
  = match (for_message_part E (stream_fragments ud ud' fragments completed) full w).1 with
    | Ret _ => ud'
    | Raise _ => ud
    end.
Proof.
  revert full w. induction fragments as [|f fs IH]; intros full w; cbn.
  - by destruct completed.
  - unfold exec in *. cbv [mbind M_bind put_ctx]. cbn [ctx sent scheduled log files].
    destruct (PyStr.truthy f); [|apply IH].
    cbv [mbind M_bind tg_try]. cbn [sent ctx scheduled log files].
    destruct (edit_text_outcome E _ _); [done|apply IH].
Qed.

(** The stream leaves the session with the user turn added when it ends
    normally, and as it found it when it fails or is abandoned. *)
Lemma stream_answer_generate E message w :
  ctx (exec (stream_answer E (generate_response E) message) w)
  = match (stream_answer E (generate_response E) message w).1 with
    | Ret _ => add_turn (Turn "user" message) (ctx w)
    | Raise _ => ctx w
    end.
Proof.
  unfold stream_answer, exec. cbv [mbind M_bind get_ctx].
  unfold generate_response.
  destruct (completion E _ _) as [fragments completed].
  apply for_message_part_stream.
Qed.

(** ** The session invariant *)

Lemma session_invariant_frame ud ud' :
  system_prompt ud' = system_prompt ud → history ud' = history ud →
  session_invariant ud → session_invariant ud'.
Proof. unfold session_invariant. by intros -> ->. Qed.

Lemma session_invariant_add_turn t ud :
  role t ≠ "system" → session_invariant ud → session_invariant (add_turn t ud).
Proof.
  unfold session_invariant, add_turn, set_messages, history. cbn.
  intros Hr. destruct (system_prompt ud) as [p|].
  - intros H. by apply lookup_app_l_Some.
  - intros H t' [Ht | Ht%list_elem_of_singleton]%elem_of_app;
      [by apply H | by subst].
Qed.

Lemma session_invariant_prompt p ud : session_invariant (prompt_session p ud).
Proof.
  unfold session_invariant, prompt_session, history; destruct p; cbn; [done|].
  intros t Ht. by apply elem_of_nil in Ht.
Qed.

Lemma session_invariant_empty : session_invariant empty_user_data.
Proof. intros t Ht. by apply elem_of_nil in Ht. Qed.

Lemma session_invariant_defaults ud :
  session_invariant ud → session_invariant (with_defaults ud).
Proof. by apply session_invariant_frame. Qed.

(** The reset establishes the invariant in any session. *)
Lemma new_chat_invariant w : session_invariant (ctx (exec new_chat w)).
Proof. unfold exec. rewrite new_chat_eq. apply session_invariant_prompt. Qed.

(** So does the new-chat command, which resets before it replies. *)
Lemma new_command_handler_ctx E w :
  ctx (exec (new_command_handler E) w)
  = prompt_session (system_prompt (ctx w)) (ctx w).
Proof.
  unfold exec, new_command_handler. cbv [mbind M_bind].
  rewrite new_chat_eq, tg_reply_eq. done.
Qed.

(** A prompt submission establishes it when it returns. *)
Lemma get_system_prompt_invariant E text w r :
  (get_system_prompt E (Some text) w).1 = Ret r →
  session_invariant (ctx (exec (get_system_prompt E (Some text)) w)).
Proof.
  unfold exec. rewrite get_system_prompt_eq.
  destruct (reply_outcome E _ _); [done|]. intros _. apply session_invariant_prompt.
Qed.

(** Message handling keeps it, whether the turn completes or fails. *)
Lemma message_handler_invariant E text w :
  session_invariant (ctx w) →
  session_invariant (ctx (exec (message_handler E (generate_response E) text) w)).
Proof.
  intros Hinv. unfold exec.
  destruct (reply_outcome E (sent w) (ReplyText "Generating response...")) as [err|] eqn:Ho.
  { rewrite (message_handler_rejected _ _ _ _ err) by done.
    by apply session_invariant_defaults. }
  destruct text as [message|]; [destruct (PyStr.truthy message) eqn:Hm|].
  - rewrite message_handler_eq by done.
    pose proof (stream_answer_generate E message (enter_turn w)) as Hctx.
    unfold exec in Hctx.
    destruct (stream_answer _ _ _ _) as [[full|e] w1]; cbn [fst snd] in Hctx.
    + match goal with |- context [voice_answer E full ?w'] =>
        destruct (voice_answer_eq E full w') as (w2 & -> & Hw2) end.
      cbn [snd]. rewrite Hw2. cbn [ctx]. rewrite Hctx. cbn [enter_turn ctx].
      apply session_invariant_add_turn; [done|].
      apply session_invariant_add_turn; [done|].
      by apply session_invariant_defaults.
    + unfold tg_try; cbn [ctx sent scheduled log files].
      destruct (edit_text_outcome E _ _); cbn [snd ctx]; rewrite Hctx;
        by apply session_invariant_defaults.
  - destruct message; [|done].
    rewrite message_handler_empty, message_prelude_eq by auto.
    by apply session_invariant_defaults.
  - rewrite message_handler_empty, message_prelude_eq by auto.
    by apply session_invariant_defaults.
Qed.

(** Every callback keeps the invariant, but for a prompt submission
    whose confirmation the transport rejects. *)
Lemma run_callback_invariant E cb u w :
  session_invariant (ctx w) →
  (cb = cb_get_system_prompt →
   ∀ err, (run_callback E (generate_response E) cb u w).1 ≠ Raise (TelegramError err)) →
  session_invariant (ctx (exec (run_callback E (generate_response E) cb u) w)).
Proof.
  intros Hinv Hret. unfold exec, run_callback in *.
  destruct cb; try (destruct (is_message u); [|exact Hinv]);
    try exact Hinv;
    try (cbv [mbind M_bind start help_command model_command_handler
              info_command_handler start_system_prompt cancelled_system_prompt
              audio_command_handler audio_command get_ctx put_ctx logging];
         cbn [ctx sent scheduled log files];
         rewrite tg_reply_eq; by destruct (reply_outcome E _ _)).
  - cbv [mbind M_bind].
    pose proof (new_command_handler_ctx E w) as H. unfold exec in H.
    destruct (new_command_handler E w) as [[[]|e] w']; cbv [mret M_ret];
      cbn [snd] in *; rewrite H; apply session_invariant_prompt.
  - destruct (message_text u) as [text|]; [|exact Hinv].
    cbv [mbind M_bind] in *. rewrite get_system_prompt_eq in *.
    destruct (reply_outcome E _ _) as [err|]; [|apply session_invariant_prompt].
    by destruct (Hret eq_refl err).
  - cbv [mbind M_bind].
    pose proof (message_handler_invariant E (message_text u) w Hinv) as H.
    unfold exec in H. by destruct (message_handler _ _ _ _) as [[[]|e] w'].
  - destruct u; try exact Hinv.
    unfold change_model_callback_handler. run_monad.
    by destruct (edit_text_outcome E _ _).
Qed.

Lemma session_leave b user c w user' :
  session (leave b user c w) user' =
  if decide (user' = user) then ctx w else session b user'.
Proof.
  unfold session, leave. cbn. destruct (decide (user' = user)) as [->|Hne].
  - by rewrite lookup_insert_eq.
  - by rewrite lookup_insert_ne.
Qed.

(** The error handler logs, replies when the update has a message, and
    leaves the session and the files alone. *)
Lemma error_handler_eq E u e w :
  exec (error_handler E u e) w =
  World (ctx w)
        (sent w ++ if is_message u
                   then [(ReplyText (error_report E u e),
                          reply_outcome E (sent w) (ReplyText (error_report E u e)))]
                   else [])
        (scheduled w)
        (log w ++ [(ERROR, "Exception while handling an update:")]) (files w).
Proof.
  unfold error_handler, exec. cbv [mbind M_bind logging].
  cbn [ctx sent scheduled log files].
  destruct (is_message u).
  - by rewrite tg_reply_eq.
  - unfold raise. cbn. by rewrite app_nil_r.
Qed.

(** A text message of an authorized user whose flow awaits the prompt
    goes to [get_system_prompt], inside the conversation. *)
Lemma select_awaiting_text auth table user text :
  table ∈ tables →
  auth user = true →
  select auth table (Some SYSTEM_PROMPT_SP) (TextUpdate user text)
  = Some (cb_get_system_prompt, true).
Proof.
  intros Ht Ha. pick_table Ht; cbn; rewrite decide_True by done; cbn;
    by rewrite Ha.
Qed.

(** ** The claims *)

(** C1. The invariant does not survive every prompt change.
    [get_system_prompt] writes the new system prompt, awaits the
    confirmation reply, and resets the history only after it: when the
    transport rejects the reply, the handler raises there, and the session
    holds the new system prompt with the history it had before.  Unless
    that history happened to start with the system turn of the new prompt,
    the session invariant is broken. *)
Theorem rejected_prompt_reply_breaks_invariant E text w err :
  PyStr.strip (PyStr.lower text) ≠ "clear" →
  reply_outcome E (sent w) (ReplyText "System prompt changed.") = Some err →
  history (ctx w) !! 0 ≠ Some (Turn "system" text) →
  (get_system_prompt E (Some text) w).1 = Raise (TelegramError err)
  ∧ system_prompt (ctx (exec (get_system_prompt E (Some text)) w)) = Some text
  ∧ history (ctx (exec (get_system_prompt E (Some text)) w)) = history (ctx w)
  ∧ ¬ session_invariant (ctx (exec (get_system_prompt E (Some text)) w)).
Proof.
  intros Hclear Ho Hh. unfold exec. rewrite get_system_prompt_eq.
  unfold prompt_confirmation, submitted_prompt.
  rewrite (bool_decide_eq_false_2 _ Hclear), Ho. cbn [fst snd ctx].
  split_and!; try done.
Qed.

Lemma rejected_prompt_reply_breaks_invariant_witness :
  session_invariant (ctx fresh_world)
  ∧ PyStr.strip (PyStr.lower "Be brief.") ≠ "clear"
  ∧ reply_outcome (with_replies (flood_after 0) hello_env) (sent fresh_world)
      (ReplyText "System prompt changed.") = Some RetryAfter
  ∧ ctx (exec (get_system_prompt (with_replies (flood_after 0) hello_env)
                 (Some "Be brief.")) fresh_world)
    = UserData (Some "Be brief.") None None None
  ∧ ¬ session_invariant
        (ctx (exec (get_system_prompt (with_replies (flood_after 0) hello_env)
                      (Some "Be brief.")) fresh_world)).
Proof.
  split; [apply session_invariant_empty|].
  split; [vm_compute; discriminate|].
  split; [reflexivity|]. split; [vm_compute; reflexivity|].
  apply (rejected_prompt_reply_breaks_invariant
           (with_replies (flood_after 0) hello_env) "Be brief." fresh_world
           RetryAfter);
    [vm_compute; discriminate | reflexivity | vm_compute; discriminate].
Defined.



(** C3. A prompt submission does not always reset the session and end
    the flow.  The text of an authorized user whose flow awaits the prompt
    reaches [get_system_prompt] under either handler table; when the
    transport rejects the confirmation reply, the system prompt has been
    cleared or set as the text says, but the handler raises before the
    reset and before it returns: the history and the other keys are as
    they were, and the flow still awaits a prompt. *)
Theorem rejected_prompt_reply_keeps_flow E table b user text err :
  table ∈ tables →
  isAuthorized E user = true →
  conversations b !! user = Some SYSTEM_PROMPT_SP →
  reply_outcome E (bot_sent b) (prompt_confirmation text) = Some err →
  conversations (bot_step E table (TextUpdate user text) b) !! user
  = Some SYSTEM_PROMPT_SP
  ∧ session (bot_step E table (TextUpdate user text) b) user
    = set_system_prompt (submitted_prompt text) (session b user).
Proof.
  intros Ht Hauth Hconv Ho. unfold bot_step, process_update.
  cbn [effective_user]. rewrite Hconv, select_awaiting_text by done.
  unfold run_callback. cbn [is_message message_text]. cbv [mbind M_bind].
  rewrite get_system_prompt_eq. cbn [enter sent]. rewrite Ho.
  pose proof error_handler_eq as He. unfold exec in He. rewrite He.
  rewrite session_leave, decide_True by done. done.
Qed.

Lemma rejected_prompt_reply_keeps_flow_witness :
  handlers_start_bot ∈ tables
  ∧ isAuthorized (with_replies (flood_after 1) hello_env) "alice" = true
  ∧ conversations
      (bot_step (with_replies (flood_after 1) hello_env) handlers_start_bot
         (CommandUpdate "alice" "system_prompt") empty_bot) !! "alice"
    = Some SYSTEM_PROMPT_SP
  ∧ conversations
      (bot_run (with_replies (flood_after 1) hello_env) handlers_start_bot
         [CommandUpdate "alice" "system_prompt"; TextUpdate "alice" "Be brief."]
         empty_bot) !! "alice"
    = Some SYSTEM_PROMPT_SP
  ∧ session
      (bot_run (with_replies (flood_after 1) hello_env) handlers_start_bot
         [CommandUpdate "alice" "system_prompt"; TextUpdate "alice" "Be brief."]
         empty_bot) "alice"
    = UserData (Some "Be brief.") None None None.
Proof.
  split; [apply list_elem_of_here|]. split; [reflexivity|].
  split; [vm_compute; reflexivity|].
  pose proof (rejected_prompt_reply_keeps_flow
                (with_replies (flood_after 1) hello_env) handlers_start_bot
                (bot_step (with_replies (flood_after 1) hello_env) handlers_start_bot
                   (CommandUpdate "alice" "system_prompt") empty_bot)
                "alice" "Be brief." RetryAfter
                (list_elem_of_here _ _) eq_refl
                ltac:(vm_compute; reflexivity) ltac:(vm_compute; reflexivity))
    as [Hflow Hsession].
  split; [exact Hflow|]. cbn [bot_run foldl]. rewrite Hsession.
  vm_compute. reflexivity.
Defined.

(** C4, as amended. During a streaming turn an edit is pushed for every
    yielded part that is not empty, with the rendering of the text
    accumulated so far, whether or not that rendering differs from the
    text emitted before; an empty part pushes nothing; the first edit the
    transport rejects is the last one of the loop. *)
Theorem edits_follow_fragments E gen message w :
  sent (exec (stream_answer E gen message) w) =
  push_edits E (sent w)
    (renders (format_message E) (trace_parts (gen message (ctx w))) EmptyString).
Proof. unfold stream_answer, exec. cbv [mbind M_bind get_ctx]. apply for_message_part_sent. Qed.

(** C4 as stated fails: after the fragment ["**Hi"] the fragment ["**"]
    closes a span that the renderer had closed already, the rendering
    stays [<b>Hi</b>], and the same text is pushed as an edit again. *)
Lemma unchanged_render_is_edited :
  HtmlFormat.format_message "**Hi" = HtmlFormat.format_message "**Hi**"
  ∧ sent (exec (message_handler (example_env accept_all ["**Hi"; "**"] true)
                  (generate_response (example_env accept_all ["**Hi"; "**"] true))
                  (Some "hello")) fresh_world)
    = [(ReplyText "Generating response...", None);
       (EditText "<b>Hi</b>", None);
       (EditText "<b>Hi</b>", None);
       (ReplyVoice "wav:**Hi**", None)]
  ∧ edits_on_change None
      (sent (exec (message_handler (example_env accept_all ["**Hi"; "**"] true)
                     (generate_response (example_env accept_all ["**Hi"; "**"] true))
                     (Some "hello")) fresh_world)) = false.
Proof. split_and!; vm_compute; reflexivity. Qed.

(** C5. Under either handler table an update that is a message (a
    command, a plain text or a message without text) from a user the
    authorization filter rejects selects no callback: the bot is left as
    it was, with no reply, no log record and no change of any session or
    conversation. *)
Theorem unauthorized_ignored E gen table u b :
  table = handlers_start_bot ∨ table = bot_start_bot →
  is_message u = true →
  isAuthorized E (effective_user u) = false →
  process_update E gen table u b = b.
Proof.
  intros Ht Hmsg Hauth. unfold process_update.
  assert (select (isAuthorized E) table
            (conversations b !! effective_user u) u = None) as ->; [|done].
  destruct (conversations b !! effective_user u) as [s|];
    destruct Ht as [-> | ->]; destruct u; try done;
    cbn -[PyStr.lower] in *; rewrite Hauth; cbn -[PyStr.lower];
    rewrite ?andb_false_r; try done.
  all: repeat case_decide; cbn -[PyStr.lower]; rewrite ?Hauth, ?andb_false_r; done.
Qed.

Lemma unauthorized_ignored_witness :
  (bot_start_bot = handlers_start_bot ∨ bot_start_bot = bot_start_bot)
  ∧ is_message (TextUpdate "mallory" "hello") = true
  ∧ isAuthorized (example_env accept_all ["Hi"] true)
      (effective_user (TextUpdate "mallory" "hello")) = false
  ∧ process_update (example_env accept_all ["Hi"] true)
      (generate_response (example_env accept_all ["Hi"] true))
      bot_start_bot (TextUpdate "mallory" "hello") empty_bot = empty_bot.
Proof.
  split; [right; reflexivity|]. split; [reflexivity|]. split; [reflexivity|].
  apply (unauthorized_ignored (example_env accept_all ["Hi"] true)
           (generate_response (example_env accept_all ["Hi"] true))
           bot_start_bot (TextUpdate "mallory" "hello") empty_bot);
    [right; reflexivity | reflexivity | reflexivity].
Defined.

(** C6. The code has two defaults. In a session without the key
    ["model"] the info command reports [llama3-8b-8192], while message
    handling stores [llama-3.1-8b-instant] before the completion is
    requested: the two readers of an unset model see different values. *)
Theorem default_model_mismatch E sp ms ve ob sc lg fs :
  let w := World (UserData sp ms None ve) ob sc lg fs in
  let report := ReplyText (format_message E
                  ("**__Conversation Info:__**" +:+ nl +:+ "**Model**: `"
                   +:+ "llama3-8b-8192" +:+ "`" +:+ nl)) in
  info_model (ctx w) = "llama3-8b-8192"
  ∧ model (ctx (enter_turn w)) = Some "llama-3.1-8b-instant"
  ∧ model (ctx (exec (message_prelude E) w)) = Some "llama-3.1-8b-instant"
  ∧ sent (exec (info_command_handler E) w) =
      ob ++ [(report, reply_outcome E ob report)]
  ∧ Some (info_model (ctx w)) ≠ model (ctx (enter_turn w)).
Proof.
  cbv zeta. unfold exec. rewrite message_prelude_eq.
  unfold info_command_handler. cbv [mbind M_bind get_ctx]. rewrite tg_reply_eq.
  by cbn.
Qed.

(** C7, as amended. An edit of the streaming loop that the transport
    rejects, [NotModified] and [RetryAfter] included, fails the turn: the
    handler logs the error, tries to replace the message by the failure
    notice, and leaves the session as the loop left it, without an
    assistant turn. *)
Theorem rejected_edit_fails_turn E gen message w new c err :
  placeholder_accepted E w →
  PyStr.truthy message = true →
  sent (exec (stream_answer E gen message) (enter_turn w))
  = sent (enter_turn w) ++ new →
  (c, Some err) ∈ new →
  let w1 := exec (stream_answer E gen message) (enter_turn w) in
  turn_failed E gen message w = true
  ∧ exec (message_handler E gen (Some message)) w =
    World (ctx w1)
          (sent w1 ++ [(EditText failure_notice,
                        edit_text_outcome E (sent w1) failure_notice)])
          (scheduled w1)
          (log w1 ++ [(ERROR, "Error processing the request")]) (files w1).
Proof.
  intros Hp Hm Hs Hin.
  assert (turn_failed E gen message w = true) as Hf.
  { rewrite turn_failed_stream.
    destruct (stream_answer_run E gen message (enter_turn w))
      as (new0 & Hs0 & _ & _ & _ & Hr).
    rewrite Hs in Hs0. apply app_inv_head in Hs0 as <-.
    destruct (stream_answer E gen message (enter_turn w)).1 as [full|e]; [|done].
    rewrite Forall_forall in Hr. by specialize (Hr _ Hin). }
  split; [done|]. by apply failed_turn_eq.
Qed.

Lemma rejected_edit_fails_turn_witness :
  placeholder_accepted (example_env reject_unchanged ["**Hi"; "**"] true) fresh_world
  ∧ PyStr.truthy "hello" = true
  ∧ sent (exec (stream_answer (example_env reject_unchanged ["**Hi"; "**"] true)
                  (generate_response (example_env reject_unchanged ["**Hi"; "**"] true))
                  "hello") (enter_turn fresh_world))
    = sent (enter_turn fresh_world)
      ++ [(EditText "<b>Hi</b>", None); (EditText "<b>Hi</b>", Some NotModified)]
  ∧ (EditText "<b>Hi</b>", Some NotModified)
    ∈ [(EditText "<b>Hi</b>", None); (EditText "<b>Hi</b>", Some NotModified)]
  ∧ (let w1 :=
       exec (stream_answer (example_env reject_unchanged ["**Hi"; "**"] true)
               (generate_response (example_env reject_unchanged ["**Hi"; "**"] true))
               "hello") (enter_turn fresh_world) in
     turn_failed (example_env reject_unchanged ["**Hi"; "**"] true)
       (generate_response (example_env reject_unchanged ["**Hi"; "**"] true))
       "hello" fresh_world = true
     ∧ exec (message_handler (example_env reject_unchanged ["**Hi"; "**"] true)
               (generate_response (example_env reject_unchanged ["**Hi"; "**"] true))
               (Some "hello")) fresh_world =
       World (ctx w1)
             (sent w1 ++ [(EditText failure_notice,
                           edit_text_outcome
                             (example_env reject_unchanged ["**Hi"; "**"] true)
                             (sent w1) failure_notice)])
             (scheduled w1)
             (log w1 ++ [(ERROR, "Error processing the request")]) (files w1)).
Proof.
  split; [reflexivity|].
  split; [reflexivity|]. split; [vm_compute; reflexivity|].
  split; [apply list_elem_of_further, list_elem_of_here|].
  apply (rejected_edit_fails_turn
           (example_env reject_unchanged ["**Hi"; "**"] true)
           (generate_response (example_env reject_unchanged ["**Hi"; "**"] true))
           "hello" fresh_world
           [(EditText "<b>Hi</b>", None); (EditText "<b>Hi</b>", Some NotModified)]
           (EditText "<b>Hi</b>") NotModified);
    [reflexivity | reflexivity | vm_compute; reflexivity
     | apply list_elem_of_further, list_elem_of_here].
Defined.

(** C7 as stated fails: the transport answers [NotModified] to the second
    edit, whose text the message shows already; the turn fails, the
    failure notice replaces the answer, and no assistant turn is appended
    to the history. *)
Lemma not_modified_fails_turn :
  sent (exec (message_handler (example_env reject_unchanged ["**Hi"; "**"] true)
                (generate_response (example_env reject_unchanged ["**Hi"; "**"] true))
                (Some "hello")) fresh_world)
  = [(ReplyText "Generating response...", None);
     (EditText "<b>Hi</b>", None);
     (EditText "<b>Hi</b>", Some NotModified);
     (EditText failure_notice, None)]
  ∧ turn_failed (example_env reject_unchanged ["**Hi"; "**"] true)
      (generate_response (example_env reject_unchanged ["**Hi"; "**"] true))
      "hello" fresh_world = true
  ∧ history (ctx (exec (message_handler
                          (example_env reject_unchanged ["**Hi"; "**"] true)
                          (generate_response
                             (example_env reject_unchanged ["**Hi"; "**"] true))
                          (Some "hello")) fresh_world))
    = [].
Proof. split_and!; vm_compute; reflexivity. Qed.

(** C8. In a turn whose stream completed, with voice enabled, the handler
    returns normally whatever the audio step meets.  The session is the
    one the stream left plus the assistant turn; the transport calls made
    for the text answer stay as they were and the only call that may
    follow them is the one voice upload, so no notice of a failure reaches
    the chat; and a failure of language detection, of synthesis, of reading
    the audio file back or of the upload has its record in the log. *)
Theorem voice_failure_is_local E gen message w full w1 :
  placeholder_accepted E w →
  PyStr.truthy message = true →
  stream_answer E gen message (enter_turn w) = (Ret full, w1) →
  voice_setting (ctx w1) = true →
  ∃ new lg fs,
    message_handler E gen (Some message) w =
      (Ret tt, World (add_turn (Turn "assistant" full) (ctx w1))
                     (sent w1 ++ new) (scheduled w1) (log w1 ++ lg) fs)
    ∧ (∀ entry, entry ∈ new → ∃ audio o, entry = (ReplyVoice audio, o))
    ∧ (detection_failed E full →
       (ERROR, "Language detection failed. Defaulting to English.") ∈ lg)
    ∧ (synthesis_failed E full →
       (ERROR, "Error during text-to-speech conversion") ∈ lg)
    ∧ (fs !! "temp_audio.wav" = None →
       (ERROR, "Error generating or sending audio") ∈ lg)
    ∧ (upload_failed new →
       (ERROR, "Error generating or sending audio") ∈ lg).
Proof.
  intros Hp Hm Hs Hv. rewrite message_handler_eq, Hs by done.
  unfold voice_answer. cbv [mbind M_bind get_ctx]. cbn [ctx].
  replace (voice_setting (add_turn _ (ctx w1))) with true by done.
  unfold try_except. cbv [mbind M_bind].
  match goal with |- context [text_to_wav E full ?f ?w'] =>
    destruct (text_to_wav_log E full f w') as (lg & fs & -> & Hd & Hg) end.
  cbn [ctx sent scheduled log files]. unfold read_file. cbn [files].
  destruct (fs !! "temp_audio.wav") as [audio|] eqn:Hfile.
  - unfold tg_try. cbn [ctx sent scheduled log files].
    destruct (reply_voice_outcome E (sent w1) audio) as [err|] eqn:Ho.
    + unfold logging. cbn [ctx sent scheduled log files].
      eexists [_], (lg ++ [_]), fs. rewrite app_assoc. split; [reflexivity|].
      split_and!.
      * intros entry ->%list_elem_of_singleton. eauto.
      * intros H. apply elem_of_app. auto.
      * intros H. apply elem_of_app. auto.
      * intros _. apply elem_of_app. right. by apply list_elem_of_singleton.
      * intros _. apply elem_of_app. right. by apply list_elem_of_singleton.
    + eexists [_], lg, fs. split; [reflexivity|]. split_and!; auto.
      * intros entry ->%list_elem_of_singleton. eauto.
      * intros H. congruence.
      * intros (a & err & [=]%list_elem_of_singleton).
  - unfold logging. cbn [ctx sent scheduled log files].
    eexists [], (lg ++ [_]), fs. rewrite app_nil_r, app_assoc. split; [reflexivity|].
    split_and!.
    + intros entry []%elem_of_nil.
    + intros H. apply elem_of_app. auto.
    + intros H. apply elem_of_app. auto.
    + intros _. apply elem_of_app. right. by apply list_elem_of_singleton.
    + intros _. apply elem_of_app. right. by apply list_elem_of_singleton.
Qed.

Lemma voice_failure_is_local_witness :
  placeholder_accepted (voiceless_env ["Hi"; " there"]) fresh_world
  ∧ PyStr.truthy "hello" = true
  ∧ stream_answer (voiceless_env ["Hi"; " there"])
      (generate_response (voiceless_env ["Hi"; " there"])) "hello"
      (enter_turn fresh_world)
    = (Ret "Hi there",
       exec (stream_answer (voiceless_env ["Hi"; " there"])
               (generate_response (voiceless_env ["Hi"; " there"])) "hello")
            (enter_turn fresh_world))
  ∧ voice_setting
      (ctx (exec (stream_answer (voiceless_env ["Hi"; " there"])
                    (generate_response (voiceless_env ["Hi"; " there"])) "hello")
                 (enter_turn fresh_world))) = true
  ∧ ∃ new lg fs,
      message_handler (voiceless_env ["Hi"; " there"])
        (generate_response (voiceless_env ["Hi"; " there"])) (Some "hello")
        fresh_world =
        (Ret tt,
         World (add_turn (Turn "assistant" "Hi there")
                  (ctx (exec (stream_answer (voiceless_env ["Hi"; " there"])
                                (generate_response (voiceless_env ["Hi"; " there"]))
                                "hello") (enter_turn fresh_world))))
               (sent (exec (stream_answer (voiceless_env ["Hi"; " there"])
                              (generate_response (voiceless_env ["Hi"; " there"]))
                              "hello") (enter_turn fresh_world)) ++ new)
               (scheduled (exec (stream_answer (voiceless_env ["Hi"; " there"])
                              (generate_response (voiceless_env ["Hi"; " there"]))
                              "hello") (enter_turn fresh_world)))
               (log (exec (stream_answer (voiceless_env ["Hi"; " there"])
                             (generate_response (voiceless_env ["Hi"; " there"]))
                             "hello") (enter_turn fresh_world)) ++ lg) fs)
      ∧ (∀ entry, entry ∈ new → ∃ audio o, entry = (ReplyVoice audio, o))
      ∧ (detection_failed (voiceless_env ["Hi"; " there"]) "Hi there" →
         (ERROR, "Language detection failed. Defaulting to English.") ∈ lg)
      ∧ (synthesis_failed (voiceless_env ["Hi"; " there"]) "Hi there" →
         (ERROR, "Error during text-to-speech conversion") ∈ lg)
      ∧ (fs !! "temp_audio.wav" = None →
         (ERROR, "Error generating or sending audio") ∈ lg)
      ∧ (upload_failed new →
         (ERROR, "Error generating or sending audio") ∈ lg).
Proof.
  split; [reflexivity|].
  split; [reflexivity|]. split; [vm_compute; reflexivity|].
  split; [vm_compute; reflexivity|].
  apply (voice_failure_is_local (voiceless_env ["Hi"; " there"])
           (generate_response (voiceless_env ["Hi"; " there"]))
           "hello" fresh_world "Hi there");
    vm_compute; reflexivity.
Defined.

(** C9. For a message whose text is empty, or that has no text, the
    handler stops after one transport call, the placeholder: it returns
    when the transport accepts the placeholder and raises its error
    otherwise.  The state it leaves owes nothing to the generator or to
    any other answer of the outside world (no completion is requested, no
    edit is pushed, no voice is made, nothing is logged), and the history
    is the one it found. *)
Theorem empty_text_stops_after_placeholder E gen w :
  let o := reply_outcome E (sent w) (ReplyText "Generating response...") in
  let w' := World (with_defaults (ctx w))
                  (sent w ++ [(ReplyText "Generating response...", o)])
                  (scheduled w) (log w) (files w) in
  message_handler E gen (Some EmptyString) w = (outcome_result o, w')
  ∧ message_handler E gen None w = (outcome_result o, w')
  ∧ history (ctx w') = history (ctx w).
Proof.
  cbv zeta. rewrite !message_handler_empty by auto.
  by rewrite message_prelude_eq.
Qed.

(** C10. The audio command, in the version of handlers.py and in the
    version of bot.py: one application negates the voice setting (an
    unset key reads as true) and changes neither the system prompt, nor
    the history, nor the model; two applications give the voice setting
    back. *)
Theorem audio_toggle_involution E w user :
  let once := ctx (exec (audio_command_handler E) w) in
  let twice := ctx (exec (audio_command_handler E)
                      (exec (audio_command_handler E) w)) in
  let once' := ctx (exec (audio_command E user) w) in
  let twice' := ctx (exec (audio_command E user) (exec (audio_command E user) w)) in
  (voice_setting once = negb (voice_setting (ctx w))
   ∧ voice_setting twice = voice_setting (ctx w)
   ∧ system_prompt once = system_prompt (ctx w)
   ∧ messages once = messages (ctx w)
   ∧ model once = model (ctx w))
  ∧ (voice_setting once' = negb (voice_setting (ctx w))
     ∧ voice_setting twice' = voice_setting (ctx w)
     ∧ system_prompt once' = system_prompt (ctx w)
     ∧ messages once' = messages (ctx w)
     ∧ model once' = model (ctx w)).
Proof.
  assert (∀ w0, ctx (exec (audio_command_handler E) w0)
                = set_voice_enabled (negb (voice_setting (ctx w0))) (ctx w0)) as H1.
  { intros w0. unfold exec, audio_command_handler. cbv [mbind M_bind get_ctx put_ctx].
    by rewrite tg_reply_eq. }
  assert (∀ w0, ctx (exec (audio_command E user) w0)
                = set_voice_enabled (negb (voice_setting (ctx w0))) (ctx w0)) as H2.
  { intros w0. unfold exec, audio_command.
    cbv [mbind M_bind get_ctx put_ctx logging]. by rewrite tg_reply_eq. }
  cbv zeta. rewrite !H1, !H2. unfold voice_setting. cbn.
  by rewrite negb_involutive.
Qed.

(** ** Further properties *)

(** X1. Every callback the bot registers, with the generator of
    groq_chat/groq_chat.py, leaves a session that satisfies the invariant
    in a state that satisfies it, whatever the outside world answers and
    also when the callback raises, with one exception: a prompt submission
    that raises the error of its confirmation reply. *)
Theorem callback_keeps_invariant E cb u w :
  session_invariant (ctx w) →
  (cb = cb_get_system_prompt →
   ∀ err, (run_callback E (generate_response E) cb u w).1 ≠ Raise (TelegramError err)) →
  session_invariant (ctx (exec (run_callback E (generate_response E) cb u) w)).
Proof. apply run_callback_invariant. Qed.

Lemma callback_keeps_invariant_witness :
  session_invariant (ctx briefed_world)
  ∧ (run_callback (with_replies (flood_after 0) hello_env)
       (generate_response (with_replies (flood_after 0) hello_env))
       cb_message_handler (TextUpdate "alice" "hello") briefed_world).1
    = Raise (TelegramError RetryAfter)
  ∧ session_invariant
      (ctx (exec (run_callback (with_replies (flood_after 0) hello_env)
                    (generate_response (with_replies (flood_after 0) hello_env))
                    cb_message_handler (TextUpdate "alice" "hello"))
                 briefed_world))
  ∧ session_invariant
      (ctx (exec (run_callback hello_env (generate_response hello_env)
                    cb_get_system_prompt (TextUpdate "alice" "Be kind."))
                 briefed_world)).
Proof.
  split; [reflexivity|]. split; [vm_compute; reflexivity|]. split.
  - apply (callback_keeps_invariant (with_replies (flood_after 0) hello_env)
             cb_message_handler (TextUpdate "alice" "hello") briefed_world);
      [reflexivity | discriminate].
  - apply (callback_keeps_invariant hello_env
             cb_get_system_prompt (TextUpdate "alice" "Be kind.") briefed_world);
      [reflexivity | intros _ err; vm_compute; discriminate].
Defined.

(** X2. The reset establishes the invariant in any session, also in one
    that did not satisfy it, and so does the new-chat command on every
    path, its reply being sent after the reset; a prompt submission
    establishes it when it returns. *)
Theorem reset_establishes_invariant E text w :
  session_invariant (ctx (exec new_chat w))
  ∧ session_invariant (ctx (exec (new_command_handler E) w))
  ∧ ((get_system_prompt E (Some text) w).1 = Ret END →
     session_invariant (ctx (exec (get_system_prompt E (Some text)) w))).
Proof.
  split; [apply new_chat_invariant|]. split.
  - rewrite new_command_handler_ctx. apply session_invariant_prompt.
  - apply get_system_prompt_invariant.
Qed.

Lemma reset_establishes_invariant_witness :
  ¬ session_invariant
      (ctx (World (UserData (Some "Be brief.") None None None) [] [] [] ∅))
  ∧ (get_system_prompt hello_env (Some "Be kind.")
       (World (UserData (Some "Be brief.") None None None) [] [] [] ∅)).1 = Ret END
  ∧ session_invariant
      (ctx (exec (get_system_prompt hello_env (Some "Be kind."))
              (World (UserData (Some "Be brief.") None None None) [] [] [] ∅)))
  ∧ session_invariant
      (ctx (exec (new_command_handler (with_replies (flood_after 0) hello_env))
              (World (UserData (Some "Be brief.") None None None) [] [] [] ∅))).
Proof.
  split; [vm_compute; discriminate|]. split; [vm_compute; reflexivity|].
  pose proof (reset_establishes_invariant hello_env "Be kind."
                (World (UserData (Some "Be brief.") None None None) [] [] [] ∅))
    as (_ & _ & Hprompt).
  pose proof (reset_establishes_invariant (with_replies (flood_after 0) hello_env)
                "Be kind."
                (World (UserData (Some "Be brief.") None None None) [] [] [] ∅))
    as (_ & Hnew & _).
  split; [apply Hprompt; vm_compute; reflexivity | exact Hnew].
Defined.

(** X3. A text message of an authorized user whose prompt-change flow
    awaits the prompt (conversation state [SYSTEM_PROMPT_SP]), when the
    transport accepts the confirmation reply, ends the flow (no
    conversation state is left) under either handler table; when the
    text, lowercased and stripped, is ["clear"] the session has no system
    prompt and an empty history, and otherwise its system prompt is the
    text as sent and its history is the one system turn carrying it. *)
Theorem prompt_submission_routed E table b user text :
  table = handlers_start_bot ∨ table = bot_start_bot →
  isAuthorized E user = true →
  conversations b !! user = Some SYSTEM_PROMPT_SP →
  reply_outcome E (bot_sent b) (prompt_confirmation text) = None →
  let b' := bot_step E table (TextUpdate user text) b in
  conversations b' !! user = None
  ∧ if bool_decide (PyStr.strip (PyStr.lower text) = "clear")
    then system_prompt (session b' user) = None
         ∧ messages (session b' user) = Some []
    else system_prompt (session b' user) = Some text
         ∧ messages (session b' user) = Some [Turn "system" text].
Proof.
  intros Ht Hauth Hconv Ho. cbv zeta. unfold bot_step, process_update.
  cbn [effective_user]. rewrite Hconv.
  assert (table ∈ tables) as Hin.
  { destruct Ht as [-> | ->];
      [apply list_elem_of_here | apply list_elem_of_further, list_elem_of_here]. }
  rewrite select_awaiting_text by done.
  unfold run_callback. cbn [is_message message_text]. cbv [mbind M_bind].
  rewrite get_system_prompt_eq. cbn [enter sent]. rewrite Ho. cbv [mret M_ret].
  rewrite session_leave. rewrite decide_True by done.
  unfold leave, update_state. cbn [conversations ctx].
  rewrite decide_True by done. rewrite lookup_delete_eq. split; [done|].
  unfold submitted_prompt. by case_bool_decide.
Qed.

Lemma prompt_submission_routed_witness :
  (handlers_start_bot = handlers_start_bot ∨ handlers_start_bot = bot_start_bot)
  ∧ isAuthorized hello_env "alice" = true
  ∧ conversations awaiting_bot !! "alice" = Some SYSTEM_PROMPT_SP
  ∧ (conversations
       (bot_step hello_env handlers_start_bot (TextUpdate "alice" " Clear ")
          awaiting_bot) !! "alice" = None
     ∧ system_prompt
         (session (bot_step hello_env handlers_start_bot
                     (TextUpdate "alice" " Clear ") awaiting_bot) "alice") = None
     ∧ messages
         (session (bot_step hello_env handlers_start_bot
                     (TextUpdate "alice" " Clear ") awaiting_bot) "alice") = Some [])
  ∧ (conversations
       (bot_step hello_env handlers_start_bot (TextUpdate "alice" "Clear it")
          awaiting_bot) !! "alice" = None
     ∧ system_prompt
         (session (bot_step hello_env handlers_start_bot
                     (TextUpdate "alice" "Clear it") awaiting_bot) "alice")
       = Some "Clear it"
     ∧ messages
         (session (bot_step hello_env handlers_start_bot
                     (TextUpdate "alice" "Clear it") awaiting_bot) "alice")
       = Some [Turn "system" "Clear it"]).
Proof.
  split; [left; reflexivity|]. split; [reflexivity|].
  split; [vm_compute; reflexivity|].
  pose proof (prompt_submission_routed hello_env handlers_start_bot awaiting_bot
                "alice" " Clear " (or_introl eq_refl) eq_refl
                ltac:(vm_compute; reflexivity) eq_refl) as Hclear.
  pose proof (prompt_submission_routed hello_env handlers_start_bot awaiting_bot
                "alice" "Clear it" (or_introl eq_refl) eq_refl
                ltac:(vm_compute; reflexivity) eq_refl) as Hset.
  cbv zeta in Hclear, Hset.
  change (bool_decide (PyStr.strip (PyStr.lower " Clear ") = "clear"))
    with true in Hclear.
  change (bool_decide (PyStr.strip (PyStr.lower "Clear it") = "clear"))
    with false in Hset.
  split; [exact Hclear | exact Hset].
Defined.

(** The scenario of section 8: in a new session the message ["hello"] is
    answered by the fragments ["Hi"] and [" there"]; the history is the
    user turn and the assistant turn, two edits were pushed, and one audio
    was made and sent. *)
Example hello_scenario :
  exec (message_handler (example_env accept_all ["Hi"; " there"] true)
          (generate_response (example_env accept_all ["Hi"; " there"] true))
          (Some "hello")) fresh_world
  = World (UserData None
             (Some [Turn "user" "hello"; Turn "assistant" "Hi there"])
             (Some "llama-3.1-8b-instant") None)
          [(ReplyText "Generating response...", None);
           (EditText "Hi", None);
           (EditText "Hi there", None);
           (ReplyVoice "wav:Hi there", None)]
          [SendChatAction "typing"]
          [(INFO, "Audio saved as 'temp_audio.wav'")]
          {["temp_audio.wav" := "wav:Hi there"]}.
Proof. vm_compute. reflexivity. Qed.

(** The scenario of section 8 for the prompt-change flow: the command,
    then ["clear"], leave no system prompt, an empty history and no
    conversation state. *)
Example clear_scenario :
  session (bot_run (example_env accept_all [] true) handlers_start_bot
             [CommandUpdate "alice" "system_prompt"; TextUpdate "alice" "clear"]
             empty_bot) "alice"
  = UserData None (Some []) None None
  ∧ conversations
      (bot_run (example_env accept_all [] true) handlers_start_bot
         [CommandUpdate "alice" "system_prompt"; TextUpdate "alice" "clear"]
         empty_bot) !! "alice" = None.
Proof. split; vm_compute; reflexivity. Qed.

(** A transport that takes the instructions of the prompt-change flow
    and rejects what follows: after the prompt is submitted, the bot holds
    a session that breaks the invariant. *)
Example flood_scenario :
  ¬ sessions_ok
      (bot_run (with_replies (flood_after 1) hello_env) handlers_start_bot
         [CommandUpdate "alice" "system_prompt"; TextUpdate "alice" "Be brief."]
         empty_bot).
Proof. intros H. specialize (H "alice"). vm_compute in H. discriminate. Qed.

(** A press on a model button reaches its callback without the
    authorization filter: [CallbackQueryHandler] is registered with a
    pattern only. *)
Example callback_query_unfiltered :
  session (process_update (example_env accept_all [] true)
             (generate_response (example_env accept_all [] true))
             handlers_start_bot
             (CallbackQueryUpdate "mallory" "change_model_gemma-7b-it") empty_bot)
          "mallory"
  = UserData None None (Some "gemma-7b-it") None.
Proof. vm_compute. reflexivity. Qed.

(** A command is recognised whatever its case. *)
Example uppercase_command :
  bot_sent (process_update hello_env (generate_response hello_env)
              handlers_start_bot (CommandUpdate "alice" "NEW") empty_bot)
  = [(ReplyText ("New chat session started." +:+ nl +:+ nl
                 +:+ "Switch models with /model."), None)].
Proof. vm_compute. reflexivity. Qed.

(** ** Further properties of the turn *)

Lemma append_cons c s t : String c s +:+ t = String c (s +:+ t).
Proof. reflexivity. Qed.

Lemma append_empty_r s : s +:+ EmptyString = s.
Proof. induction s as [|c s IH]; [done|]. by rewrite append_cons, IH. Qed.

Lemma append_assoc s1 s2 s3 : (s1 +:+ s2) +:+ s3 = s1 +:+ (s2 +:+ s3).
Proof. induction s1 as [|c s IH]; [done|]. by rewrite !append_cons, IH. Qed.

Lemma truthy_false s : PyStr.truthy s = false → s = EmptyString.
Proof. by destruct s. Qed.

(** What the loop returns is what it was given, followed by the parts. *)
Lemma for_message_part_ret E t full w s w' :
  for_message_part E t full w = (Ret s, w') →
  s = full +:+ concat_parts (trace_parts t).
Proof.
  revert full w. induction t as [ud' part rest IH | ud' | ud']; intros full w; cbn.
  - cbv [mbind M_bind put_ctx]. cbn [ctx sent scheduled log files].
    destruct (PyStr.truthy part) eqn:Hp.
    + cbv [mbind M_bind tg_try]. cbn [sent ctx scheduled log files].
      destruct (edit_text_outcome E (sent w) _); [done|].
      intros H%IH. by rewrite H, append_assoc.
    + intros H%IH. apply truthy_false in Hp as ->. done.
  - run_monad. intros [= <-]. by rewrite append_empty_r.
  - run_monad. done.
Qed.

Lemma completed_turn_ctx E gen message w :
  placeholder_accepted E w →
  PyStr.truthy message = true →
  turn_failed E gen message w = false →
  ctx (exec (message_handler E gen (Some message)) w)
  = add_turn
      (Turn "assistant"
         (concat_parts (trace_parts (gen message (ctx (enter_turn w))))))
      (ctx (exec (stream_answer E gen message) (enter_turn w))).
Proof.
  intros Hp Hm Hf. rewrite turn_failed_stream in Hf. unfold exec.
  rewrite message_handler_eq by done.
  destruct (stream_answer E gen message (enter_turn w)) as [[full|e] w1] eqn:Hs; [|done].
  unfold stream_answer in Hs. cbv [mbind M_bind get_ctx] in Hs.
  pose proof Hs as Hfull. apply for_message_part_ret in Hfull as ->.
  match goal with |- context [voice_answer E ?f ?w'] =>
    destruct (voice_answer_eq E f w') as (w2 & -> & Hw2) end.
  cbn [snd]. by rewrite Hw2.
Qed.

Lemma trace_parts_stream ud ud' fragments completed :
  trace_parts (stream_fragments ud ud' fragments completed) = fragments.
Proof.
  induction fragments as [|f fs IH]; cbn; [by destruct completed|by rewrite IH].
Qed.

(** X6. In a turn that does not fail, for any generator, the one turn the
    handler appends to the history the generator left has the role
    assistant and, as content, the parts the generator yielded put
    together in their order, the empty ones adding nothing. *)
Theorem assistant_turn_is_concatenation E gen message w :
  placeholder_accepted E w →
  PyStr.truthy message = true →
  turn_failed E gen message w = false →
  ctx (exec (message_handler E gen (Some message)) w)
  = add_turn
      (Turn "assistant"
         (concat_parts (trace_parts (gen message (ctx (enter_turn w))))))
      (ctx (exec (stream_answer E gen message) (enter_turn w))).
Proof. apply completed_turn_ctx. Qed.

Lemma assistant_turn_is_concatenation_witness :
  placeholder_accepted (example_env accept_all ["Hi"; ""; " there"] true) fresh_world
  ∧ PyStr.truthy "hello" = true
  ∧ turn_failed (example_env accept_all ["Hi"; ""; " there"] true)
      (generate_response (example_env accept_all ["Hi"; ""; " there"] true))
      "hello" fresh_world = false
  ∧ history
      (ctx (exec (message_handler (example_env accept_all ["Hi"; ""; " there"] true)
                    (generate_response
                       (example_env accept_all ["Hi"; ""; " there"] true))
                    (Some "hello")) fresh_world))
    = [Turn "user" "hello"; Turn "assistant" "Hi there"].
Proof.
  split; [reflexivity|].
  split; [reflexivity|]. split; [vm_compute; reflexivity|].
  rewrite (assistant_turn_is_concatenation
             (example_env accept_all ["Hi"; ""; " there"] true)
             (generate_response (example_env accept_all ["Hi"; ""; " there"] true))
             "hello" fresh_world);
    vm_compute; reflexivity.
Defined.

(** X4. A turn that does not fail, with the generator of
    groq_chat/groq_chat.py: the completion is requested for the history
    of the session followed by the user turn and for the model of the
    session (the default of the handler when none is set), and the session
    ends with the handler's defaults, its history followed by the user
    turn and by the assistant turn whose content is the fragments of that
    completion put together. *)
Theorem completed_turn_history E message w :
  placeholder_accepted E w →
  PyStr.truthy message = true →
  turn_failed E (generate_response E) message w = false →
  ctx (exec (message_handler E (generate_response E) (Some message)) w)
  = add_turn
      (Turn "assistant"
         (concat_parts
            (completion E (history (ctx w) ++ [Turn "user" message])
               (Some (default "llama-3.1-8b-instant" (model (ctx w))))).1))
      (add_turn (Turn "user" message) (with_defaults (ctx w))).
Proof.
  intros Hp Hm Hf. rewrite completed_turn_ctx by done.
  rewrite stream_answer_generate. rewrite turn_failed_stream in Hf.
  destruct (stream_answer E (generate_response E) message (enter_turn w)).1;
    [|done].
  cbn [enter_turn ctx].
  f_equal. f_equal. f_equal. unfold generate_response. cbn.
  destruct (completion E _ _) as [fragments completed]. cbn.
  apply trace_parts_stream.
Qed.

Lemma completed_turn_history_witness :
  placeholder_accepted hello_env briefed_world
  ∧ PyStr.truthy "hello" = true
  ∧ turn_failed hello_env (generate_response hello_env) "hello" briefed_world
    = false
  ∧ history (ctx (exec (message_handler hello_env (generate_response hello_env)
                          (Some "hello")) briefed_world))
    = [Turn "system" "Be brief."; Turn "user" "hello";
       Turn "assistant" "Hi there"].
Proof.
  split; [reflexivity|].
  split; [reflexivity|]. split; [vm_compute; reflexivity|].
  rewrite (completed_turn_history hello_env "hello" briefed_world);
    vm_compute; reflexivity.
Defined.

(** X7. With the voice setting off, a turn whose stream completed ends
    with the assistant turn appended and nothing else: no language
    detection, no synthesis, no file written, no upload and no log
    record. *)
Theorem voice_disabled_is_silent E gen message w full w1 :
  placeholder_accepted E w →
  PyStr.truthy message = true →
  stream_answer E gen message (enter_turn w) = (Ret full, w1) →
  voice_setting (ctx w1) = false →
  message_handler E gen (Some message) w =
  (Ret tt, World (add_turn (Turn "assistant" full) (ctx w1))
                 (sent w1) (scheduled w1) (log w1) (files w1)).
Proof.
  intros Hp Hm Hs Hv. rewrite message_handler_eq, Hs by done.
  unfold voice_answer. cbv [mbind M_bind get_ctx]. cbn [ctx].
  by replace (voice_setting (add_turn _ (ctx w1))) with false by done.
Qed.

Lemma voice_disabled_is_silent_witness :
  placeholder_accepted hello_env (exec (audio_command_handler hello_env) fresh_world)
  ∧ PyStr.truthy "hello" = true
  ∧ stream_answer hello_env (generate_response hello_env) "hello"
      (enter_turn (exec (audio_command_handler hello_env) fresh_world))
    = (Ret "Hi there",
       exec (stream_answer hello_env (generate_response hello_env) "hello")
            (enter_turn (exec (audio_command_handler hello_env) fresh_world)))
  ∧ voice_setting
      (ctx (exec (stream_answer hello_env (generate_response hello_env) "hello")
                 (enter_turn (exec (audio_command_handler hello_env) fresh_world))))
    = false
  ∧ exec (message_handler hello_env (generate_response hello_env) (Some "hello"))
         (exec (audio_command_handler hello_env) fresh_world)
    = World (UserData None
               (Some [Turn "user" "hello"; Turn "assistant" "Hi there"])
               (Some "llama-3.1-8b-instant") (Some false))
            [(ReplyText "Voice synthesis has been disabled.", None);
             (ReplyText "Generating response...", None);
             (EditText "Hi", None);
             (EditText "Hi there", None)]
            [SendChatAction "typing"]
            [] ∅.
Proof.
  split; [reflexivity|].
  split; [reflexivity|]. split; [vm_compute; reflexivity|].
  split; [vm_compute; reflexivity|].
  unfold exec at 1.
  rewrite (voice_disabled_is_silent hello_env (generate_response hello_env)
             "hello" (exec (audio_command_handler hello_env) fresh_world) "Hi there"
             (exec (stream_answer hello_env (generate_response hello_env) "hello")
                   (enter_turn (exec (audio_command_handler hello_env) fresh_world))));
    vm_compute; reflexivity.
Defined.

(** X8. When synthesis fails without writing the file and a file
    [temp_audio.wav] is there from an earlier turn, the handler uploads
    the audio of that earlier turn as the voice of the present answer:
    [text_to_wav] has logged the failure and returned, and the file is
    read back whatever it holds. *)
Theorem stale_audio_is_sent E gen message w full w1 old :
  placeholder_accepted E w →
  PyStr.truthy message = true →
  stream_answer E gen message (enter_turn w) = (Ret full, w1) →
  voice_setting (ctx w1) = true →
  gTTS_save E full (default "en" (detect E full)) = TtsError None →
  files w1 !! "temp_audio.wav" = Some old →
  sent (exec (message_handler E gen (Some message)) w)
  = sent w1 ++ [(ReplyVoice old, reply_voice_outcome E (sent w1) old)]
  ∧ files (exec (message_handler E gen (Some message)) w) = files w1.
Proof.
  intros Hp Hm Hs Hv Hg Hfile. unfold exec. rewrite message_handler_eq, Hs by done.
  unfold voice_answer. cbv [mbind M_bind get_ctx]. cbn [ctx].
  replace (voice_setting (add_turn _ (ctx w1))) with true by done.
  unfold try_except, text_to_wav. cbv [mbind M_bind].
  destruct (detect E full) as [l|]; simpl in Hg; run_monad; rewrite Hg;
    run_monad; rewrite Hfile; cbn;
    by destruct (reply_voice_outcome E (sent w1) old).
Qed.

Lemma stale_audio_is_sent_witness :
  placeholder_accepted flaky_voice_env
    (exec (message_handler flaky_voice_env (generate_response flaky_voice_env)
             (Some "hello")) fresh_world)
  ∧ PyStr.truthy "again" = true
  ∧ stream_answer flaky_voice_env (generate_response flaky_voice_env) "again"
      (enter_turn (exec (message_handler flaky_voice_env
                           (generate_response flaky_voice_env) (Some "hello"))
                        fresh_world))
    = (Ret "Bye",
       exec (stream_answer flaky_voice_env (generate_response flaky_voice_env)
               "again")
            (enter_turn (exec (message_handler flaky_voice_env
                                 (generate_response flaky_voice_env)
                                 (Some "hello")) fresh_world)))
  ∧ sent (exec (message_handler flaky_voice_env
                  (generate_response flaky_voice_env) (Some "again"))
               (exec (message_handler flaky_voice_env
                        (generate_response flaky_voice_env) (Some "hello"))
                     fresh_world))
    = [(ReplyText "Generating response...", None);
       (EditText "Hi", None);
       (ReplyVoice "wav:Hi", None);
       (ReplyText "Generating response...", None);
       (EditText "Bye", None);
       (ReplyVoice "wav:Hi", None)].
Proof.
  split; [reflexivity|].
  split; [reflexivity|]. split; [vm_compute; reflexivity|].
  rewrite (proj1 (stale_audio_is_sent flaky_voice_env
             (generate_response flaky_voice_env) "again"
             (exec (message_handler flaky_voice_env
                      (generate_response flaky_voice_env) (Some "hello"))
                   fresh_world)
             "Bye"
             (exec (stream_answer flaky_voice_env
                      (generate_response flaky_voice_env) "again")
                   (enter_turn (exec (message_handler flaky_voice_env
                                        (generate_response flaky_voice_env)
                                        (Some "hello")) fresh_world)))
             "wav:Hi"
             ltac:(reflexivity)
             ltac:(reflexivity) ltac:(vm_compute; reflexivity)
             ltac:(vm_compute; reflexivity) ltac:(vm_compute; reflexivity)
             ltac:(vm_compute; reflexivity)));
    vm_compute; reflexivity.
Defined.

(** X9. [message_handler] raises in two cases only, and what it raises
    is the error of the transport: the placeholder is rejected, which ends
    the handler before the turn begins; or the turn failed and the edit
    that was to show the failure notice is rejected as well.  In every
    other case, an empty text, a completed turn, a failed turn whose
    notice is shown, it returns normally. *)
Theorem message_handler_raises_iff E gen text w e :
  (message_handler E gen text w).1 = Raise e ↔
  (∃ err,
     reply_outcome E (sent w) (ReplyText "Generating response...") = Some err
     ∧ e = TelegramError err)
  ∨ (placeholder_accepted E w
     ∧ ∃ message err,
         text = Some message ∧ PyStr.truthy message = true
         ∧ turn_failed E gen message w = true
         ∧ edit_text_outcome E
             (sent (exec (stream_answer E gen message) (enter_turn w)))
             failure_notice
           = Some err
         ∧ e = TelegramError err).
Proof.
  unfold placeholder_accepted.
  destruct (reply_outcome E (sent w) (ReplyText "Generating response..."))
    as [err0|] eqn:Hp.
  { rewrite (message_handler_rejected _ _ _ _ err0) by done. cbn [fst]. split.
    - intros [= <-]. left. by exists err0.
    - intros [(err & [= ->] & ->) | [[=] _]]. done. }
  split.
  - intros H. right. split; [done|]. revert H.
    destruct text as [message|]; [destruct (PyStr.truthy message) eqn:Hm|].
    + rewrite message_handler_eq by done. intros H.
      exists message. rewrite turn_failed_stream. unfold exec.
      destruct (stream_answer E gen message (enter_turn w)) as [[full|e'] w1].
      * match type of H with context [voice_answer E ?f ?w'] =>
          destruct (voice_answer_eq E f w') as (w2 & Hv & _) end.
        by rewrite Hv in H.
      * unfold tg_try in H. cbn [ctx sent scheduled log files snd fst] in *.
        destruct (edit_text_outcome E (sent w1) failure_notice) as [err|]; [|done].
        exists err. by injection H as <-.
    + destruct message; [|done].
      by rewrite message_handler_empty, message_prelude_eq, Hp by auto.
    + by rewrite message_handler_empty, message_prelude_eq, Hp by auto.
  - intros [(err & [=] & _) | (_ & message & err & -> & Hm & Hf & Ho & ->)].
    rewrite turn_failed_stream in Hf. unfold exec in Ho.
    rewrite message_handler_eq by done.
    destruct (stream_answer E gen message (enter_turn w)) as [[full|e'] w1]; [done|].
    unfold tg_try. cbn [ctx sent scheduled log files snd] in *. by rewrite Ho.
Qed.

Lemma message_handler_generate_ctx E text w :
  ∃ turns,
    ctx (exec (message_handler E (generate_response E) text) w)
    = set_messages (history (ctx w) ++ turns) (with_defaults (ctx w))
    ∧ length turns ≤ 2.
Proof.
  assert (with_defaults (ctx w)
          = set_messages (history (ctx w) ++ []) (with_defaults (ctx w))) as Hnone.
  { unfold set_messages, with_defaults, history. cbn. by rewrite app_nil_r. }
  unfold exec.
  destruct (reply_outcome E (sent w) (ReplyText "Generating response...")) as [err|] eqn:Ho.
  { rewrite (message_handler_rejected _ _ _ _ err) by done.
    exists []. split; [done|cbn; lia]. }
  destruct text as [message|]; [destruct (PyStr.truthy message) eqn:Hm|].
  - rewrite message_handler_eq by done.
    pose proof (stream_answer_generate E message (enter_turn w)) as Hctx.
    unfold exec in Hctx.
    destruct (stream_answer _ _ _ _) as [[full|e] w1]; cbn [fst snd] in Hctx.
    + match goal with |- context [voice_answer E full ?w'] =>
        destruct (voice_answer_eq E full w') as (w2 & -> & Hw2) end.
      cbn [snd]. rewrite Hw2. cbn [ctx]. rewrite Hctx. cbn [enter_turn ctx].
      eexists [_; _]. unfold add_turn, set_messages, history. cbn.
      rewrite <- app_assoc. split; [done|lia].
    + exists []. unfold tg_try; cbn [ctx sent scheduled log files].
      destruct (edit_text_outcome E _ _); cbn [snd ctx];
        rewrite Hctx; split; (done || cbn; lia).
  - destruct message; [|done]. exists [].
    rewrite message_handler_empty, message_prelude_eq by auto.
    split; [done|cbn; lia].
  - exists []. rewrite message_handler_empty, message_prelude_eq by auto.
    split; [done|cbn; lia].
Qed.

(** X10. Message handling, with the generator of groq_chat/groq_chat.py
    and for any text and any answer of the outside world, changes neither
    the system prompt nor the voice setting; it leaves the model set, to
    the one the session had or else to the default of the handler, which
    is what the info command reports from then on; and it only adds to the
    history, two turns at most. *)
Theorem message_handler_frame E text w :
  let ud' := ctx (exec (message_handler E (generate_response E) text) w) in
  system_prompt ud' = system_prompt (ctx w)
  ∧ voice_enabled ud' = voice_enabled (ctx w)
  ∧ model ud' = Some (default "llama-3.1-8b-instant" (model (ctx w)))
  ∧ info_model ud' = default "llama-3.1-8b-instant" (model (ctx w))
  ∧ ∃ turns, history ud' = history (ctx w) ++ turns ∧ length turns ≤ 2.
Proof.
  cbv zeta. destruct (message_handler_generate_ctx E text w) as (turns & -> & Hlen).
  unfold info_model. cbn. split_and!; try done. by exists turns.
Qed.

(** X11. The new-chat command keeps the system prompt, the model and the
    voice setting and leaves as history the system turn alone, or nothing
    without a system prompt, whether or not its reply is accepted; a
    second new-chat command changes nothing more, and neither does one
    that follows a prompt submission that returned. *)
Theorem new_command_forgets_history E w text :
  let ud := ctx w in
  let ud' := ctx (exec (new_command_handler E) w) in
  system_prompt ud' = system_prompt ud
  ∧ model ud' = model ud
  ∧ voice_enabled ud' = voice_enabled ud
  ∧ history ud' = match system_prompt ud with
                  | Some p => [Turn "system" p]
                  | None => []
                  end
  ∧ ctx (exec (new_command_handler E) (exec (new_command_handler E) w)) = ud'
  ∧ ((get_system_prompt E (Some text) w).1 = Ret END →
     ctx (exec (new_command_handler E) (exec (get_system_prompt E (Some text)) w))
     = ctx (exec (get_system_prompt E (Some text)) w)).
Proof.
  cbv zeta. rewrite !new_command_handler_ctx. split_and!; try done.
  unfold exec. rewrite get_system_prompt_eq.
  by destruct (reply_outcome E _ _).
Qed.

Lemma new_command_forgets_history_witness :
  (get_system_prompt hello_env (Some "Be brief.") fresh_world).1 = Ret END
  ∧ ctx (exec (new_command_handler (with_replies (flood_after 0) hello_env))
           (exec (get_system_prompt hello_env (Some "Be brief.")) fresh_world))
    = UserData (Some "Be brief.") (Some [Turn "system" "Be brief."]) None None
  ∧ ctx (exec (new_command_handler hello_env)
           (exec (get_system_prompt hello_env (Some "Be brief.")) fresh_world))
    = ctx (exec (get_system_prompt hello_env (Some "Be brief.")) fresh_world).
Proof.
  split; [vm_compute; reflexivity|]. split; [vm_compute; reflexivity|].
  apply (new_command_forgets_history hello_env fresh_world "Be brief.").
  vm_compute. reflexivity.
Defined.

(** ** Further properties of the handler tables *)

Lemma select_callback_query auth table state user data :
  table ∈ tables →
  select auth table state (CallbackQueryUpdate user data)
  = if String.prefix "change_model_" data
    then Some (cb_change_model_callback_handler, false) else None.
Proof.
  intros Ht. pick_table Ht.
  all: destruct state as [s|]; cbn; rewrite ?andb_false_r; cbn;
    repeat case_decide; cbn; rewrite ?andb_false_r; cbn;
    by destruct (String.prefix _ data).
Qed.

Lemma bool_decide_sym {A} `{EqDecision A} (a b : A) :
  bool_decide (a = b) = bool_decide (b = a).
Proof. by apply bool_decide_ext. Qed.

Lemma select_plain_command auth c cb table state user command :
  select auth (Plain (CommandHandler c cb AuthFilter) :: table) state
    (CommandUpdate user command)
  = if bool_decide (PyStr.lower command = PyStr.lower c) && auth user
    then Some (cb, false)
    else select auth table state (CommandUpdate user command).
Proof.
  cbn -[PyStr.lower]. rewrite (bool_decide_sym (PyStr.lower c)).
  by destruct (_ && _).
Qed.

Lemma select_conversation_command auth state user command :
  select auth conversation_tail state (CommandUpdate user command)
  = if auth user
    then match state with
         | None =>
             if bool_decide (PyStr.lower command = "system_prompt")
             then Some (cb_start_system_prompt, true) else None
         | Some _ =>
             if bool_decide (PyStr.lower command = "cancel")
             then Some (cb_cancelled_system_prompt, true) else None
         end
    else None.
Proof.
  unfold conversation_tail.
  destruct state as [s|]; cbn -[PyStr.lower bool_decide];
    repeat (destruct (decide (s = _)); cbn -[PyStr.lower bool_decide]);
    change (PyStr.lower "system_prompt") with "system_prompt";
    change (PyStr.lower "cancel") with "cancel";
    rewrite ?(bool_decide_sym _ (PyStr.lower command));
    generalize (PyStr.lower command); intros name;
    destruct (auth user); rewrite ?andb_false_r, ?andb_true_r;
    cbn -[bool_decide]; try done;
    by destruct (bool_decide _).
Qed.

(** The route of a command through either table: the name is compared
    in lower case, and nothing is selected for a user the filter
    rejects. *)
Lemma select_command auth state user command :
  select auth handlers_start_bot state (CommandUpdate user command)
  = (if auth user
     then route_command cb_audio_command_handler state (PyStr.lower command)
     else None)
  ∧ select auth bot_start_bot state (CommandUpdate user command)
    = (if auth user
       then route_command cb_audio_command state (PyStr.lower command)
       else None).
Proof.
  unfold route_command, handlers_start_bot, bot_start_bot.
  rewrite !select_plain_command.
  fold conversation_tail. rewrite select_conversation_command.
  change (PyStr.lower "start") with "start".
  change (PyStr.lower "help") with "help".
  change (PyStr.lower "new") with "new".
  change (PyStr.lower "model") with "model".
  change (PyStr.lower "info") with "info".
  change (PyStr.lower "audio") with "audio".
  destruct (auth user); rewrite ?andb_false_r, ?andb_true_r; done.
Qed.

Lemma callback_query_session E gen table user data b :
  table ∈ tables →
  String.prefix "change_model_" data = true →
  session (process_update E gen table (CallbackQueryUpdate user data) b) user
  = set_model (remove_all "change_model_" data 0) (session b user)
  ∧ conversations (process_update E gen table (CallbackQueryUpdate user data) b)
    = conversations b.
Proof.
  intros Ht Hp. unfold process_update. cbn [effective_user].
  rewrite select_callback_query, Hp by done.
  unfold run_callback, change_model_callback_handler. run_monad.
  destruct (edit_text_outcome E _ _); cbn.
  - rewrite session_leave, decide_True by done. split; [|done].
    pose proof error_handler_eq as He. unfold exec in He. by rewrite He.
  - by rewrite session_leave, decide_True by done.
Qed.

Lemma callback_query_model E gen table user data b :
  table ∈ tables →
  String.prefix "change_model_" data = true →
  model (session (process_update E gen table (CallbackQueryUpdate user data) b) user)
  = Some (remove_all "change_model_" data 0).
Proof.
  intros Ht Hp. by rewrite (proj1 (callback_query_session E gen _ _ _ b Ht Hp)).
Qed.

(** X5. A callback query is handled exactly when its data starts with
    [change_model_], whoever sent it: the handler is registered with the
    pattern and without the authorization filter.  It then sets the model
    of the sender's session to the data with every occurrence of
    [change_model_] removed, whatever the transport answers to the
    confirmation, and leaves the conversation states alone; any other
    callback query changes nothing. *)
Theorem callback_query_sets_model E gen table user data b :
  table ∈ tables →
  let b' := process_update E gen table (CallbackQueryUpdate user data) b in
  if String.prefix "change_model_" data
  then session b' user
       = set_model (remove_all "change_model_" data 0) (session b user)
       ∧ conversations b' = conversations b
  else b' = b.
Proof.
  intros Ht. cbv zeta.
  destruct (String.prefix "change_model_" data) eqn:Hp;
    [by apply callback_query_session|].
  unfold process_update. cbn [effective_user].
  by rewrite select_callback_query, Hp.
Qed.

Lemma callback_query_sets_model_witness :
  handlers_start_bot ∈ tables
  ∧ isAuthorized hello_env "mallory" = false
  ∧ session (process_update hello_env (generate_response hello_env)
               handlers_start_bot
               (CallbackQueryUpdate "mallory" "change_model_gemma-7b-it")
               empty_bot) "mallory"
    = UserData None None (Some "gemma-7b-it") None.
Proof.
  split; [apply list_elem_of_here|]. split; [reflexivity|].
  rewrite (proj1 (callback_query_sets_model hello_env (generate_response hello_env)
                    handlers_start_bot "mallory" "change_model_gemma-7b-it"
                    empty_bot (list_elem_of_here _ _))).
  vm_compute. reflexivity.
Defined.

(** X12. When the transport rejects the edit that confirms a model
    change, the model is changed all the same (the session is written
    before the edit is awaited); [error_handler] logs the exception, and,
    the update having no message to reply to, nothing more is sent to the
    chat. *)
Theorem rejected_model_edit E gen table user data b err :
  table ∈ tables →
  String.prefix "change_model_" data = true →
  edit_text_outcome E (bot_sent b)
    (model_changed_text (remove_all "change_model_" data 0)) = Some err →
  let b' := process_update E gen table (CallbackQueryUpdate user data) b in
  model (session b' user) = Some (remove_all "change_model_" data 0)
  ∧ bot_sent b'
    = bot_sent b
      ++ [(QueryEditMessageText
             (model_changed_text (remove_all "change_model_" data 0)), Some err)]
  ∧ bot_log b' = bot_log b ++ [(ERROR, "Exception while handling an update:")].
Proof.
  intros Ht Hp Ho. cbv zeta. unfold process_update. cbn [effective_user].
  rewrite select_callback_query, Hp by done.
  unfold run_callback, change_model_callback_handler. run_monad.
  fold (model_changed_text (remove_all "change_model_" data 0)).
  unfold enter. cbn [sent]. rewrite Ho.
  pose proof error_handler_eq as He. unfold exec in He. rewrite He.
  cbn. rewrite app_nil_r.
  by rewrite session_leave, decide_True by done.
Qed.

Lemma rejected_model_edit_witness :
  bot_start_bot ∈ tables
  ∧ String.prefix "change_model_" "change_model_gemma-7b-it" = true
  ∧ edit_text_outcome (example_env reject_all [] true) (bot_sent empty_bot)
      (model_changed_text (remove_all "change_model_" "change_model_gemma-7b-it" 0))
    = Some NotModified
  ∧ model (session (process_update (example_env reject_all [] true)
                      (generate_response (example_env reject_all [] true))
                      bot_start_bot
                      (CallbackQueryUpdate "alice" "change_model_gemma-7b-it")
                      empty_bot) "alice")
    = Some "gemma-7b-it".
Proof.
  split; [apply list_elem_of_further, list_elem_of_here|].
  split; [reflexivity|]. split; [reflexivity|].
  rewrite (proj1 (rejected_model_edit (example_env reject_all [] true)
                    (generate_response (example_env reject_all [] true))
                    bot_start_bot "alice" "change_model_gemma-7b-it" empty_bot
                    NotModified
                    (list_elem_of_further _ _ _ (list_elem_of_here _ _))
                    eq_refl eq_refl)).
  reflexivity.
Defined.

(** X13. The keyboard that the model command sends has eight buttons,
    and a press on any of them, under either handler table, for any user
    and any bot state, sets the model of the session to the label the
    button shows. *)
Theorem model_buttons_round_trip E w :
  ∃ buttons,
    sent (exec (model_command_handler E) w)
    = sent w ++ [(ReplyKeyboard "Select a model:" buttons,
                  reply_outcome E (sent w) (ReplyKeyboard "Select a model:" buttons))]
    ∧ length buttons = 8
    ∧ Forall (fun button =>
        ∀ E' gen user b,
          Forall (fun table =>
            model (session
                     (process_update E' gen table
                        (CallbackQueryUpdate user button.2) b) user)
            = Some button.1) tables) buttons.
Proof.
  eexists. split; [unfold exec, model_command_handler; by rewrite tg_reply_eq|].
  split; [reflexivity|].
  simpl. repeat apply Forall_cons_2; try apply Forall_nil_2.
  all: intros E' gen user b; repeat apply Forall_cons_2; try apply Forall_nil_2.
  all: simpl; rewrite callback_query_model;
    [reflexivity
    | first [apply list_elem_of_here | apply list_elem_of_further, list_elem_of_here]
    | reflexivity].
Qed.

(** What the callback of a plain command does: it writes the session,
    maybe the log, and sends its one reply last. *)
Lemma plain_callback_run E gen cb user command w :
  cb ∈ [cb_start; cb_help_command; cb_new_command_handler;
        cb_model_command_handler; cb_info_command_handler;
        cb_audio_command_handler; cb_audio_command] →
  ∃ ud' lg reply,
    run_callback E gen cb (CommandUpdate user command) w
    = (match reply_outcome E (sent w) reply with
       | None => Ret None
       | Some err => Raise (TelegramError err)
       end,
       World ud' (sent w ++ [(reply, reply_outcome E (sent w) reply)])
             (scheduled w) (log w ++ lg) (files w))
    ∧ (cb = cb_new_command_handler →
       ud' = prompt_session (system_prompt (ctx w)) (ctx w))
    ∧ (cb = cb_audio_command_handler ∨ cb = cb_audio_command →
       ud' = set_voice_enabled (negb (voice_setting (ctx w))) (ctx w)).
Proof.
  intros Hcb.
  repeat (apply elem_of_cons in Hcb as [-> | Hcb]); [..|by apply elem_of_nil in Hcb].
  all: unfold run_callback; cbn [is_message effective_user];
    cbv [mbind M_bind mret M_ret start help_command new_command_handler
         model_command_handler info_command_handler audio_command_handler
         audio_command get_ctx put_ctx logging];
    rewrite ?new_chat_eq; cbn [ctx sent scheduled log files];
    rewrite tg_reply_eq; cbn [ctx sent scheduled log files].
  all: unfold outcome_result;
    match goal with |- context [reply_outcome ?e ?ob ?c] =>
      destruct (reply_outcome e ob c) eqn:Ho end.
  all: first [ eexists _, [], _; rewrite app_nil_r;
               split; [rewrite Ho; reflexivity|]
             | eexists _, [_], _; split; [rewrite Ho; reflexivity|] ].
  all: split; [intros [=]; done | intros [[=] | [=]]; done].
Qed.

(** X14. The commands registered outside the conversation (start, help,
    new, model, info, audio) are handled for an authorized user in every
    state of the prompt-change flow, also while it awaits the prompt: each
    is answered with one message, after which only the report of the
    error handler follows when the transport rejected that message; each
    leaves the conversation states as they were, and the new-chat command
    resets the session. *)
Theorem plain_commands_any_state E gen table user command b :
  table ∈ tables →
  isAuthorized E user = true →
  command ∈ plain_commands →
  let b' := process_update E gen table (CommandUpdate user command) b in
  conversations b' = conversations b
  ∧ (∃ reply rest,
       bot_sent b'
       = bot_sent b ++ (reply, reply_outcome E (bot_sent b) reply) :: rest
       ∧ (reply_outcome E (bot_sent b) reply = None → rest = []))
  ∧ (command = "new" →
     session b' user = prompt_session (system_prompt (session b user)) (session b user)).
Proof.
  intros Ht Hauth Hc. cbv zeta. unfold process_update. cbn [effective_user].
  destruct (select_command (isAuthorized E) (conversations b !! user) user command)
    as [H1 H2].
  assert (∃ cb,
    select (isAuthorized E) table (conversations b !! user)
      (CommandUpdate user command) = Some (cb, false)
    ∧ cb ∈ [cb_start; cb_help_command; cb_new_command_handler;
            cb_model_command_handler; cb_info_command_handler;
            cb_audio_command_handler; cb_audio_command]
    ∧ (command = "new" → cb = cb_new_command_handler)) as (cb & -> & Hcb & Hnew).
  { unfold plain_commands in Hc.
    repeat (apply elem_of_cons in Hc as [-> | Hc]); [..|by apply elem_of_nil in Hc].
    all: pick_table Ht; rewrite ?H1, ?H2, Hauth.
    all: eexists; (split; [reflexivity|]); split; [|try discriminate; done].
    all: repeat first [apply list_elem_of_here | apply list_elem_of_further]. }
  destruct (plain_callback_run E gen cb user command (enter b user) Hcb)
    as (ud' & lg & reply & -> & Hud & _).
  cbn [enter sent].
  destruct (reply_outcome E (bot_sent b) reply) as [err|] eqn:Ho.
  - pose proof error_handler_eq as He. unfold exec in He. rewrite He.
    cbn [leave conversations bot_sent ctx sent is_message].
    split; [done|]. split.
    + eexists reply, [_]. rewrite Ho, <- app_assoc. split; [reflexivity|done].
    + intros Hn. rewrite session_leave, decide_True by done. cbn [ctx].
      by apply Hud, Hnew.
  - cbn [leave conversations bot_sent ctx sent]. split; [done|]. split.
    + exists reply, []. by rewrite Ho.
    + intros Hn. rewrite session_leave, decide_True by done. cbn [ctx].
      by apply Hud, Hnew.
Qed.

Lemma plain_commands_any_state_witness :
  handlers_start_bot ∈ tables
  ∧ isAuthorized hello_env "alice" = true
  ∧ "new" ∈ plain_commands
  ∧ conversations awaiting_bot !! "alice" = Some SYSTEM_PROMPT_SP
  ∧ conversations
      (process_update hello_env (generate_response hello_env) handlers_start_bot
         (CommandUpdate "alice" "new") awaiting_bot)
    = conversations awaiting_bot.
Proof.
  split; [apply list_elem_of_here|]. split; [reflexivity|].
  split; [apply list_elem_of_further, list_elem_of_further, list_elem_of_here|].
  split; [vm_compute; reflexivity|].
  apply (plain_commands_any_state hello_env (generate_response hello_env)
           handlers_start_bot "alice" "new" awaiting_bot);
    [apply list_elem_of_here | reflexivity
     | apply list_elem_of_further, list_elem_of_further, list_elem_of_here].
Defined.

(** X15. The cancel command of an authorized user whose conversation is
    in any state is answered with the cancellation message and leaves the
    session, its system prompt included, as it was.  It ends the
    conversation when the transport accepts that message; when the
    transport rejects it, the handler raises before it returns, the
    conversation stays in its state and the report of the error handler
    follows. *)
Theorem cancel_ends_prompt_flow E gen table user s b :
  table ∈ tables →
  isAuthorized E user = true →
  conversations b !! user = Some s →
  let b' := process_update E gen table (CommandUpdate user "cancel") b in
  let o := reply_outcome E (bot_sent b) (ReplyText "System prompt change cancelled.") in
  session b' user = session b user
  ∧ conversations b' !! user = match o with None => None | Some _ => Some s end
  ∧ ∃ rest,
      bot_sent b'
      = bot_sent b ++ (ReplyText "System prompt change cancelled.", o) :: rest
      ∧ (o = None → rest = []).
Proof.
  intros Ht Hauth Hs. cbv zeta. unfold process_update. cbn [effective_user].
  destruct (select_command (isAuthorized E) (conversations b !! user) user "cancel")
    as [H1 H2].
  assert (select (isAuthorized E) table (conversations b !! user)
            (CommandUpdate user "cancel") = Some (cb_cancelled_system_prompt, true))
    as ->.
  { pick_table Ht; rewrite ?H1, ?H2, Hauth, Hs; reflexivity. }
  unfold run_callback, cancelled_system_prompt. cbn [is_message].
  cbv [mbind M_bind mret M_ret]. rewrite tg_reply_eq. cbn [enter sent ctx].
  destruct (reply_outcome E (bot_sent b) _) as [err|]; cbn [outcome_result].
  - pose proof error_handler_eq as He. unfold exec in He. rewrite He.
    rewrite session_leave, decide_True by done.
    cbn [leave conversations bot_sent ctx sent is_message scheduled log files].
    split; [done|]. split; [done|].
    eexists [_]. rewrite <- app_assoc. split; [reflexivity|done].
  - rewrite session_leave, decide_True by done.
    cbn [leave conversations bot_sent ctx sent update_state].
    rewrite decide_True by done. rewrite lookup_delete_eq.
    split; [done|]. split; [done|]. by exists [].
Qed.

Lemma cancel_ends_prompt_flow_witness :
  handlers_start_bot ∈ tables
  ∧ isAuthorized hello_env "alice" = true
  ∧ conversations awaiting_bot !! "alice" = Some SYSTEM_PROMPT_SP
  ∧ conversations
      (process_update hello_env (generate_response hello_env) handlers_start_bot
         (CommandUpdate "alice" "cancel") awaiting_bot) !! "alice" = None
  ∧ conversations
      (process_update (with_replies (flood_after 1) hello_env)
         (generate_response (with_replies (flood_after 1) hello_env))
         handlers_start_bot (CommandUpdate "alice" "cancel") awaiting_bot) !! "alice"
    = Some SYSTEM_PROMPT_SP.
Proof.
  split; [apply list_elem_of_here|]. split; [reflexivity|].
  split; [vm_compute; reflexivity|].
  split.
  - apply (cancel_ends_prompt_flow hello_env (generate_response hello_env)
             handlers_start_bot "alice" SYSTEM_PROMPT_SP awaiting_bot);
      [apply list_elem_of_here | reflexivity | vm_compute; reflexivity].
  - apply (cancel_ends_prompt_flow (with_replies (flood_after 1) hello_env)
             (generate_response (with_replies (flood_after 1) hello_env))
             handlers_start_bot "alice" SYSTEM_PROMPT_SP awaiting_bot);
      [apply list_elem_of_here | reflexivity | vm_compute; reflexivity].
Defined.

(** X16. A command is ignored, the bot being left as it was, when its
    name in lower case is none of the six plain commands and, for a user
    with no conversation, is not [system_prompt], or, for a user with a
    conversation, is not [cancel].  So the cancel command outside the
    flow, an unknown command, and the system-prompt command sent again
    while the prompt is awaited all do nothing, for authorized users
    too. *)
Theorem unregistered_command_ignored E gen table user command b :
  table ∈ tables →
  PyStr.lower command ∉ plain_commands →
  match conversations b !! user with
  | None => PyStr.lower command ≠ "system_prompt"
  | Some _ => PyStr.lower command ≠ "cancel"
  end →
  process_update E gen table (CommandUpdate user command) b = b.
Proof.
  intros Ht Hc Hflow. unfold process_update. cbn [effective_user].
  assert (select (isAuthorized E) table (conversations b !! user)
            (CommandUpdate user command) = None) as ->; [|done].
  destruct (select_command (isAuthorized E) (conversations b !! user) user command)
    as [H1 H2].
  assert (∀ audio, route_command audio (conversations b !! user) (PyStr.lower command)
                   = None) as Hroute.
  { intros audio. unfold route_command. unfold plain_commands in Hc.
    rewrite !not_elem_of_cons in Hc. destruct Hc as (? & ? & ? & ? & ? & ? & _).
    rewrite !bool_decide_eq_false_2 by done.
    destruct (conversations b !! user); by rewrite bool_decide_eq_false_2. }
  pick_table Ht; rewrite ?H1, ?H2, Hroute; by destruct (isAuthorized E user).
Qed.

Lemma unregistered_command_ignored_witness :
  handlers_start_bot ∈ tables
  ∧ (PyStr.lower "System_Prompt" ∉ plain_commands)
  ∧ conversations awaiting_bot !! "alice" = Some SYSTEM_PROMPT_SP
  ∧ process_update hello_env (generate_response hello_env) handlers_start_bot
      (CommandUpdate "alice" "System_Prompt") awaiting_bot
    = awaiting_bot.
Proof.
  split; [apply list_elem_of_here|].
  assert (PyStr.lower "System_Prompt" ∉ plain_commands) as Hc.
  { unfold plain_commands. intros H.
    repeat (apply elem_of_cons in H as [H|H]; [discriminate H|]).
    by apply elem_of_nil in H. }
  split; [exact Hc|]. split; [vm_compute; reflexivity|].
  apply (unregistered_command_ignored hello_env (generate_response hello_env)
           handlers_start_bot "alice" "System_Prompt" awaiting_bot);
    [apply list_elem_of_here | exact Hc | vm_compute; discriminate].
Defined.

Lemma bind_ret_none {A} (m : M A) (w w' : world) (r : option Z) :
  (m ;; mret None) w = (Ret r, w') → r = None.
Proof.
  cbv [mbind M_bind mret M_ret]. destruct (m w) as [[a|e] w1]; congruence.
Qed.

(** The values a callback returns. *)
Lemma run_callback_result E gen cb u w r w' :
  run_callback E gen cb u w = (Ret r, w') →
  r = None ∨ r = Some SYSTEM_PROMPT_SP ∨ r = Some END.
Proof.
  unfold run_callback.
  destruct cb; try (destruct (is_message u); [|done]).
  all: try (intros H; left; exact (bind_ret_none _ _ _ _ H)).
  - unfold start_system_prompt. cbv [mbind M_bind mret M_ret].
    rewrite tg_reply_eq. destruct (reply_outcome E _ _); [done|].
    intros [= <- <-]. auto.
  - destruct (message_text u) as [text|]; [|done].
    cbv [mbind M_bind]. rewrite get_system_prompt_eq. cbv [mret M_ret].
    destruct (reply_outcome E _ _); [done|]. intros [= <- <-]. auto.
  - unfold cancelled_system_prompt. cbv [mbind M_bind mret M_ret].
    rewrite tg_reply_eq. destruct (reply_outcome E _ _); [done|].
    intros [= <- <-]. auto.
  - destruct u; try done. intros H; left; exact (bind_ret_none _ _ _ _ H).
Qed.

Lemma process_update_conversations_ok E gen table u b :
  conversations_ok b → conversations_ok (process_update E gen table u b).
Proof.
  intros Hok. unfold process_update.
  destruct (select _ _ _ _) as [[cb in_conversation]|]; [|done].
  destruct (run_callback _ _ _ _ _) as [[r|e] w'] eqn:Hr; [|done].
  destruct in_conversation; [|done].
  apply run_callback_result in Hr as [-> | [-> | ->]]; intros user'; cbn.
  - apply Hok.
  - rewrite decide_False by done.
    destruct (decide (effective_user u = user')) as [<- | Hne].
    + rewrite lookup_insert_eq. auto.
    + rewrite lookup_insert_ne by done. apply Hok.
  - rewrite decide_True by done.
    destruct (decide (effective_user u = user')) as [<- | Hne].
    + rewrite lookup_delete_eq. auto.
    + rewrite lookup_delete_ne by done. apply Hok.
Qed.

(** X17. Whatever updates the bot has processed since it started, under
    any handler table, a conversation is in no state other than
    [SYSTEM_PROMPT_SP]: no callback returns [CANCEL_SP], so the handlers
    registered for that state are never consulted. *)
Theorem cancel_state_never_entered E table us :
  conversations_ok (bot_run E table us empty_bot).
Proof.
  assert (∀ b, conversations_ok b → conversations_ok (bot_run E table us b)) as H.
  { induction us as [|u us IH]; intros b Hok; [done|].
    cbn. apply IH. by apply process_update_conversations_ok. }
  apply H. intros user. left. apply lookup_empty.
Qed.

Lemma route_command_audio audio1 audio2 state name :
  name ≠ "audio" →
  route_command audio1 state name = route_command audio2 state name.
Proof. intros Hne. unfold route_command. by rewrite (bool_decide_eq_false_2 _ Hne). Qed.

Lemma route_command_is_audio audio state :
  route_command audio state "audio" = Some (audio, false).
Proof. reflexivity. Qed.

(** X18. The handler tables of handlers.py and of bot.py treat every
    update alike as far as sessions, conversation states and files go, and
    leave the very same bot unless the update is the audio command (in
    any case of its letters), where the two versions of the handler
    differ in the wording of the reply and in the log record only. *)
Theorem tables_agree E gen u b :
  let b1 := process_update E gen handlers_start_bot u b in
  let b2 := process_update E gen bot_start_bot u b in
  user_datas b1 = user_datas b2
  ∧ conversations b1 = conversations b2
  ∧ bot_files b1 = bot_files b2
  ∧ (b1 = b2
     ∨ ∃ command,
         u = CommandUpdate (effective_user u) command
         ∧ PyStr.lower command = "audio").
Proof.
  cbv zeta.
  destruct u as [user command|user text|user|user data];
    [|unfold process_update;
      match goal with |- context [select ?a bot_start_bot ?s ?u] =>
        change (select a bot_start_bot s u) with (select a handlers_start_bot s u)
      end; split_and!; auto; done..].
  unfold process_update. cbn [effective_user].
  destruct (select_command (isAuthorized E) (conversations b !! user) user command)
    as [-> ->].
  destruct (isAuthorized E user); [|split_and!; auto; done].
  destruct (decide (PyStr.lower command = "audio")) as [Ha|Hne].
  - rewrite Ha, !route_command_is_audio.
    destruct (plain_callback_run E gen cb_audio_command_handler user command
                (enter b user)) as (ud1 & lg1 & reply1 & -> & _ & Hud1);
      [repeat first [apply list_elem_of_here | apply list_elem_of_further]|].
    destruct (plain_callback_run E gen cb_audio_command user command
                (enter b user)) as (ud2 & lg2 & reply2 & -> & _ & Hud2);
      [repeat first [apply list_elem_of_here | apply list_elem_of_further]|].
    rewrite Hud1, Hud2 by auto.
    pose proof error_handler_eq as He. unfold exec in He.
    split_and!; [..|right; by exists command].
    all: by destruct (reply_outcome E _ reply1), (reply_outcome E _ reply2);
      rewrite ?He.
  - rewrite (route_command_audio cb_audio_command_handler cb_audio_command) by done.
    split_and!; auto.
Qed.

Lemma select_idle_text auth table user text :
  table ∈ tables →
  auth user = true →
  select auth table None (TextUpdate user text) = Some (cb_message_handler, false).
Proof. intros Ht Ha. pick_table Ht; cbn; by rewrite Ha. Qed.

(** X19. A plain text of an authorized user with no conversation goes to
    [message_handler]; the session and the conversation states are those
    the handler leaves, also when it raises.  When it raises,
    [error_handler] adds its log record and, in the chat, the report made
    of the update and of the exception, after whatever the handler had
    logged and sent. *)
Theorem idle_text_is_handled E gen table user text b :
  table ∈ tables →
  isAuthorized E user = true →
  conversations b !! user = None →
  let b' := process_update E gen table (TextUpdate user text) b in
  let r := (message_handler E gen (Some text) (enter b user)).1 in
  let w' := exec (message_handler E gen (Some text)) (enter b user) in
  session b' user = ctx w'
  ∧ conversations b' = conversations b
  ∧ match r with
    | Ret _ => bot_sent b' = sent w' ∧ bot_log b' = log w'
    | Raise e =>
        bot_sent b'
        = sent w'
          ++ [(ReplyText (error_report E (TextUpdate user text) e),
               reply_outcome E (sent w')
                 (ReplyText (error_report E (TextUpdate user text) e)))]
        ∧ bot_log b' = log w' ++ [(ERROR, "Exception while handling an update:")]
    end.
Proof.
  intros Ht Hauth Hs. cbv zeta. unfold process_update, exec. cbn [effective_user].
  rewrite Hs, select_idle_text by done.
  unfold run_callback. cbn [is_message message_text]. cbv [mbind M_bind mret M_ret].
  destruct (message_handler E gen (Some text) (enter b user)) as [[[]|e] w'];
    cbn [fst snd]; rewrite session_leave, decide_True by done; [done|].
  pose proof error_handler_eq as He. unfold exec in He. by rewrite He.
Qed.

Lemma idle_text_is_handled_witness :
  handlers_start_bot ∈ tables
  ∧ isAuthorized (example_env reject_all ["Hi"] true) "alice" = true
  ∧ conversations empty_bot !! "alice" = None
  ∧ bot_sent (process_update (example_env reject_all ["Hi"] true)
                (generate_response (example_env reject_all ["Hi"] true))
                handlers_start_bot (TextUpdate "alice" "hello") empty_bot)
    = [(ReplyText "Generating response...", None);
       (EditText "Hi", Some NotModified);
       (EditText failure_notice, Some NotModified);
       (ReplyText
          ("An exception was raised while handling an update" +:+ nl
           +:+ "<pre>update = {}</pre>" +:+ nl +:+ nl
           +:+ "<pre>Traceback</pre>"), None)]
  ∧ session (process_update (example_env reject_all ["Hi"] true)
               (generate_response (example_env reject_all ["Hi"] true))
               handlers_start_bot (TextUpdate "alice" "hello") empty_bot) "alice"
    = UserData None (Some []) (Some "llama-3.1-8b-instant") None.
Proof.
  split; [apply list_elem_of_here|]. split; [reflexivity|].
  split; [reflexivity|].
  pose proof (idle_text_is_handled (example_env reject_all ["Hi"] true)
                (generate_response (example_env reject_all ["Hi"] true))
                handlers_start_bot "alice" "hello" empty_bot
                (list_elem_of_here _ _) eq_refl eq_refl) as (Hsession & _ & Hsent).
  split; [|rewrite Hsession; vm_compute; reflexivity].
  vm_compute. reflexivity.
Defined.

(** X20. A prompt submission whose confirmation the transport accepts
    returns [ConversationHandler.END], on which the conversation of the
    user has no state left.  When the text, lowercased and stripped of
    surrounding whitespace, is ["clear"], the session has no system prompt
    and an empty history; otherwise its system prompt is the text as sent
    and its history is the one system turn that carries it.  The model
    and the voice setting are untouched in both cases. *)
Theorem prompt_submission E text w user (c : gmap string Z) :
  reply_outcome E (sent w) (prompt_confirmation text) = None →
  let ud' := ctx (exec (get_system_prompt E (Some text)) w) in
  (get_system_prompt E (Some text) w).1 = Ret END
  ∧ update_state user (Some END) c !! user = None
  ∧ (if bool_decide (PyStr.strip (PyStr.lower text) = "clear")
     then system_prompt ud' = None ∧ messages ud' = Some []
     else system_prompt ud' = Some text
          ∧ messages ud' = Some [Turn "system" text])
  ∧ model ud' = model (ctx w)
  ∧ voice_enabled ud' = voice_enabled (ctx w).
Proof.
  intros Ho. cbv zeta. unfold exec. rewrite get_system_prompt_eq, Ho.
  cbn [fst snd ctx]. split; [done|]. split.
  { unfold update_state. rewrite decide_True by done. apply lookup_delete_eq. }
  unfold submitted_prompt. by case_bool_decide.
Qed.

Lemma prompt_submission_witness :
  reply_outcome hello_env (sent briefed_world) (prompt_confirmation "  CLEAR ") = None
  ∧ reply_outcome hello_env (sent briefed_world) (prompt_confirmation "clear?") = None
  ∧ ctx (exec (get_system_prompt hello_env (Some "  CLEAR ")) briefed_world)
    = UserData None (Some []) None None
  ∧ ctx (exec (get_system_prompt hello_env (Some "clear?")) briefed_world)
    = UserData (Some "clear?") (Some [Turn "system" "clear?"]) None None.
Proof.
  split; [reflexivity|]. split; [reflexivity|].
  pose proof (prompt_submission hello_env "  CLEAR " briefed_world "alice" ∅ eq_refl)
    as (_ & _ & Hclear & _).
  pose proof (prompt_submission hello_env "clear?" briefed_world "alice" ∅ eq_refl)
    as (_ & _ & Hset & _).
  change (bool_decide (PyStr.strip (PyStr.lower "  CLEAR ") = "clear"))
    with true in Hclear.
  change (bool_decide (PyStr.strip (PyStr.lower "clear?") = "clear"))
    with false in Hset.
  destruct Hclear as [Hc1 Hc2]. destruct Hset as [Hs1 Hs2].
  split.
  - destruct (ctx (exec (get_system_prompt hello_env (Some "  CLEAR ")) briefed_world))
      as [sp ms md ve] eqn:Hud.
    cbn in Hc1, Hc2. subst sp ms.
    apply (f_equal (fun ud => (model ud, voice_enabled ud))) in Hud.
    vm_compute in Hud. by injection Hud as <- <-.
  - destruct (ctx (exec (get_system_prompt hello_env (Some "clear?")) briefed_world))
      as [sp ms md ve] eqn:Hud.
    cbn in Hs1, Hs2. subst sp ms.
    apply (f_equal (fun ud => (model ud, voice_enabled ud))) in Hud.
    vm_compute in Hud. by injection Hud as <- <-.
Defined.
